(** * POS multi-unit stock: the pricing and stock-consistency engine

    A shallow embedding of [app/models.py] (the SQLModel classes [Item],
    [Transaction], [TransactionItem] and [StockMovement] with their methods)
    and of the Stock Ledger and Transaction Aggregator operations that the
    specification describes on top of them.

    Conventions of the embedding:
    - a Python [int] is a [Z];
    - a [Decimal] amount is modelled by its value, the integer number of
      cents it denotes (the fields are declared with [decimal_places=2]).
      Comparison and [max] are those of [Z].  Addition, subtraction and
      multiplication are those of Python's default decimal context: the
      exact result rounded to 28 significant digits, ties to even
      ([Decimal_add], [Decimal_sub], [Decimal_mul_int]).  What [==] does
      not see (the exponent of the representation, the sign of zero) is
      not modelled, nor are the limits of the interpreter far beyond any
      amount (the exponent range of the context, the length of the
      integers [str] converts);
    - a method is a computation over the attributes of [self]: it may read
      them, assign them, and raise;
    - [datetime] columns and the ORM back-references ([user], [category],
      [transaction], [item]) carry no logic and are left out of the records;
      [Transaction.transaction_items] is kept, it is what
      [Transaction.calculate_totals] iterates over. *)

From Stdlib Require Import ZArith List Bool String Lia.
From Stdlib Require Import Arith Ascii Permutation.
Import ListNotations.
Local Open Scope Z_scope.

(** ** Enumerations of the source *)

Inductive UnitType : Type := ECER | GROSIR.

Inductive TransactionStatus : Type := PENDING | COMPLETED | CANCELLED.

Definition UnitType_eqb (a b : UnitType) : bool :=
  match a, b with
  | ECER, ECER | GROSIR, GROSIR => true
  | _, _ => false
  end.

Definition TransactionStatus_eqb (a b : TransactionStatus) : bool :=
  match a, b with
  | PENDING, PENDING | COMPLETED, COMPLETED | CANCELLED, CANCELLED => true
  | _, _ => false
  end.

Definition Decimal : Type := Z.

(** ** Decimal arithmetic in the default context

    [decimal.getcontext()] has [prec=28] and [rounding=ROUND_HALF_EVEN]:
    every arithmetic result is the exact result rounded to 28 significant
    digits.  The exact result of [+], [-] and of a product by an integer is
    a whole number of cents; rounding it to 28 significant digits is
    rounding that number. *)

Definition context_prec : Z := 28.

(** The number of digits a non-negative number has beyond [context_prec]. *)
Fixpoint excess_digits (fuel : nat) (a : Z) : Z :=
  match fuel with
  | O => 0
  | S fuel' =>
      if a <? 10 ^ context_prec then 0
      else 1 + excess_digits fuel' (a / 10)
  end.

(** Rounding to [context_prec] significant digits, ties to even: the
    [k] excess digits are dropped and the last digit kept is raised when
    they are more than half a unit, or exactly half and it is odd. *)
Definition Decimal_round (v : Z) : Decimal :=
  let a := Z.abs v in
  if a <? 10 ^ context_prec then v
  else
    let k := excess_digits (S (Z.to_nat (Z.log2 a))) a in
    let unit := 10 ^ k in
    let q := a / unit in
    let r := a mod unit in
    let q' :=
      if 2 * r <? unit then q
      else if unit <? 2 * r then q + 1
      else if Z.even q then q else q + 1 in
    Z.sgn v * (q' * unit).

(** [a + b], [a - b] and [Decimal(str(n)) * a]. *)
Definition Decimal_add (a b : Decimal) : Decimal := Decimal_round (a + b).
Definition Decimal_sub (a b : Decimal) : Decimal := Decimal_round (a - b).
Definition Decimal_mul_int (n : Z) (a : Decimal) : Decimal := Decimal_round (n * a).

(** ** Computations over an object's attributes *)

(** Modelled from the spec: the error kinds of section 7.  The source
    defines no exception class and no method of it has a [raise]. *)
Inductive Error : Type :=
| InvalidQuantity
| InsufficientStock
| NegativeStockError
| InvalidPayment
| InvalidStateTransition
| DuplicateIdentifier.

Inductive result (A : Type) : Type :=
| Ok (a : A)
| Fail (e : Error).
Arguments Ok {A} a.
Arguments Fail {A} e.

(** A computation over a state [S]: it returns or raises, and leaves a
    state behind in both cases (what was assigned before a raise stays
    assigned). *)
Definition M (S A : Type) : Type := S -> result A * S.

Definition ret {S A} (a : A) : M S A := fun s => (Ok a, s).

Definition raise {S A} (e : Error) : M S A := fun s => (Fail e, s).

Definition bind {S A B} (m : M S A) (k : A -> M S B) : M S B :=
  fun s =>
    match m s with
    | (Ok a, s') => k a s'
    | (Fail e, s') => (Fail e, s')
    end.

Definition gets {S A} (f : S -> A) : M S A := fun s => (Ok (f s), s).

Definition modify {S} (f : S -> S) : M S unit := fun s => (Ok tt, f s).

(** Runs a computation of a component of the state on that component. *)
Definition zoom {S T A} (get : S -> T) (set : T -> S -> S) (m : M T A) : M S A :=
  fun s => match m (get s) with (r, t') => (r, set t' s) end.

Definition on_fst {S T A} (m : M S A) : M (S * T) A :=
  zoom fst (fun a p => (a, snd p)) m.

Definition on_snd {S T A} (m : M T A) : M (S * T) A :=
  zoom snd (fun b p => (fst p, b)) m.

Definition outcome {S A} (r : result A * S) : result A := fst r.
Definition state_after {S A} (r : result A * S) : S := snd r.

Declare Scope method_scope.
Delimit Scope method_scope with method.
Notation "x <- m ;; k" := (bind m (fun x => k))
  (at level 61, m at next level, right associativity) : method_scope.
Notation "m ;; k" := (bind m (fun _ => k))
  (at level 61, right associativity) : method_scope.
Local Open Scope method_scope.

(** [calls n m s]: the method [m] called [n] times in a row from [s], a
    raise ending the run; the outcomes in order, and the final state. *)
Fixpoint calls {S A} (n : nat) (m : M S A) (s : S) : list (result A) * S :=
  match n with
  | O => ([], s)
  | Datatypes.S n' =>
      match m s with
      | (Ok a, s') =>
          match calls n' m s' with (rs, s'') => (Ok a :: rs, s'') end
      | (Fail e, s') => ([Fail e], s')
      end
  end.

(** Python's [sum(iterable, start)]: a left fold of [+] from [start], each
    addition rounded by the context. *)
Definition py_sum (xs : list Decimal) (start : Decimal) : Decimal :=
  fold_left Decimal_add xs start.

(** ** class Item *)

Module Item.

Record t : Type := mk {
  id : option Z;
  barcode : string;
  name : string;
  category_id : Z;
  wholesale_cost_price : Decimal;
  wholesale_selling_price : Decimal;
  quantity_per_wholesale : Z;
  retail_cost_price : Decimal;
  retail_selling_price : Decimal;
  stock_quantity : Z;
  minimum_stock : Z;
  is_active : bool
}.

(** The declared column constraints ([gt=0], [ge=0]). *)
Definition valid (i : t) : Prop :=
  0 < quantity_per_wholesale i /\ 0 <= stock_quantity i /\ 0 <= minimum_stock i.

Definition set_stock_quantity (v : Z) (i : t) : t :=
  mk (id i) (barcode i) (name i) (category_id i)
     (wholesale_cost_price i) (wholesale_selling_price i)
     (quantity_per_wholesale i)
     (retail_cost_price i) (retail_selling_price i)
     v (minimum_stock i) (is_active i).

Definition set_wholesale_selling_price (v : Decimal) (i : t) : t :=
  mk (id i) (barcode i) (name i) (category_id i)
     (wholesale_cost_price i) v
     (quantity_per_wholesale i)
     (retail_cost_price i) (retail_selling_price i)
     (stock_quantity i) (minimum_stock i) (is_active i).

Definition set_retail_selling_price (v : Decimal) (i : t) : t :=
  mk (id i) (barcode i) (name i) (category_id i)
     (wholesale_cost_price i) (wholesale_selling_price i)
     (quantity_per_wholesale i)
     (retail_cost_price i) v
     (stock_quantity i) (minimum_stock i) (is_active i).

(** [get_price_by_unit]: the selling price of the unit type. *)
Definition get_price_by_unit (unit_type : UnitType) : M t Decimal :=
  if UnitType_eqb unit_type GROSIR
  then gets wholesale_selling_price
  else gets retail_selling_price.

(** [convert_to_ecer_quantity]: the quantity in Ecer, the base unit. *)
Definition convert_to_ecer_quantity (quantity : Z) (unit_type : UnitType) : M t Z :=
  if UnitType_eqb unit_type GROSIR
  then (per_pack <- gets quantity_per_wholesale ;; ret (quantity * per_pack))
  else ret quantity.

(** [can_fulfill_order]: is there enough stock for the order. *)
Definition can_fulfill_order (quantity : Z) (unit_type : UnitType) : M t bool :=
  required_ecer_quantity <- convert_to_ecer_quantity quantity unit_type ;;
  stock <- gets stock_quantity ;;
  ret (stock >=? required_ecer_quantity).

End Item.

(** ** class TransactionItem *)

Module TransactionItem.

Record t : Type := mk {
  id : option Z;
  transaction_id : Z;
  item_id : Z;
  quantity : Z;
  unit_type : UnitType;
  unit_price : Decimal;
  total_price : Decimal;
  ecer_quantity : Z
}.

Definition set_unit_price (v : Decimal) (l : t) : t :=
  mk (id l) (transaction_id l) (item_id l) (quantity l) (unit_type l)
     v (total_price l) (ecer_quantity l).

Definition set_total_price (v : Decimal) (l : t) : t :=
  mk (id l) (transaction_id l) (item_id l) (quantity l) (unit_type l)
     (unit_price l) v (ecer_quantity l).

Definition set_ecer_quantity (v : Z) (l : t) : t :=
  mk (id l) (transaction_id l) (item_id l) (quantity l) (unit_type l)
     (unit_price l) (total_price l) v.

(** [calculate_totals(self, item)]: total price and ecer quantity.  The
    state is the pair of [self] and of the [item] passed in: the method
    assigns attributes of the first and calls methods of the second.
    [Decimal(str(self.quantity)) * self.unit_price] is the integer
    quantity times the price, rounded by the decimal context. *)
Definition calculate_totals : M (t * Item.t) unit :=
  u <- on_fst (gets unit_type) ;;
  price <- on_snd (Item.get_price_by_unit u) ;;
  on_fst (modify (set_unit_price price)) ;;
  q <- on_fst (gets quantity) ;;
  p <- on_fst (gets unit_price) ;;
  on_fst (modify (set_total_price (Decimal_mul_int q p))) ;;
  q' <- on_fst (gets quantity) ;;
  u' <- on_fst (gets unit_type) ;;
  ecer <- on_snd (Item.convert_to_ecer_quantity q' u') ;;
  on_fst (modify (set_ecer_quantity ecer)).

End TransactionItem.

(** ** class Transaction *)

Module Transaction.

Record t : Type := mk {
  id : option Z;
  transaction_number : string;
  user_id : Z;
  subtotal : Decimal;
  tax_amount : Decimal;
  discount_amount : Decimal;
  total_amount : Decimal;
  payment_amount : Decimal;
  change_amount : Decimal;
  status : TransactionStatus;
  notes : string;
  transaction_items : list TransactionItem.t
}.

Definition set_subtotal (v : Decimal) (x : t) : t :=
  mk (id x) (transaction_number x) (user_id x)
     v (tax_amount x) (discount_amount x) (total_amount x)
     (payment_amount x) (change_amount x)
     (status x) (notes x) (transaction_items x).

Definition set_tax_amount (v : Decimal) (x : t) : t :=
  mk (id x) (transaction_number x) (user_id x)
     (subtotal x) v (discount_amount x) (total_amount x)
     (payment_amount x) (change_amount x)
     (status x) (notes x) (transaction_items x).

Definition set_discount_amount (v : Decimal) (x : t) : t :=
  mk (id x) (transaction_number x) (user_id x)
     (subtotal x) (tax_amount x) v (total_amount x)
     (payment_amount x) (change_amount x)
     (status x) (notes x) (transaction_items x).

Definition set_total_amount (v : Decimal) (x : t) : t :=
  mk (id x) (transaction_number x) (user_id x)
     (subtotal x) (tax_amount x) (discount_amount x) v
     (payment_amount x) (change_amount x)
     (status x) (notes x) (transaction_items x).

Definition set_payment_amount (v : Decimal) (x : t) : t :=
  mk (id x) (transaction_number x) (user_id x)
     (subtotal x) (tax_amount x) (discount_amount x) (total_amount x)
     v (change_amount x)
     (status x) (notes x) (transaction_items x).

Definition set_change_amount (v : Decimal) (x : t) : t :=
  mk (id x) (transaction_number x) (user_id x)
     (subtotal x) (tax_amount x) (discount_amount x) (total_amount x)
     (payment_amount x) v
     (status x) (notes x) (transaction_items x).

Definition set_status (v : TransactionStatus) (x : t) : t :=
  mk (id x) (transaction_number x) (user_id x)
     (subtotal x) (tax_amount x) (discount_amount x) (total_amount x)
     (payment_amount x) (change_amount x)
     v (notes x) (transaction_items x).

Definition set_transaction_items (v : list TransactionItem.t) (x : t) : t :=
  mk (id x) (transaction_number x) (user_id x)
     (subtotal x) (tax_amount x) (discount_amount x) (total_amount x)
     (payment_amount x) (change_amount x)
     (status x) (notes x) v.

(** [calculate_totals(self)]: subtotal and total from the transaction
    items.  Each assignment is followed by reads of the attribute just
    assigned, as in the source; [+] and [-] on amounts are those of the
    decimal context, [max] returns the larger value. *)
Definition calculate_totals : M t unit :=
  items <- gets transaction_items ;;
  modify (set_subtotal (py_sum (map TransactionItem.total_price items) 0)) ;;
  sub <- gets subtotal ;;
  tax <- gets tax_amount ;;
  discount <- gets discount_amount ;;
  modify (set_total_amount (Decimal_sub (Decimal_add sub tax) discount)) ;;
  payment <- gets payment_amount ;;
  total <- gets total_amount ;;
  modify (set_change_amount (Z.max 0 (Decimal_sub payment total))).

End Transaction.

(** ** class StockMovement *)

Module StockMovement.

Record t : Type := mk {
  id : option Z;
  item_id : Z;
  transaction_item_id : option Z;
  movement_type : string;
  quantity_change : Z;
  previous_stock : Z;
  new_stock : Z;
  reason : string;
  created_at : Z;
  created_by : Z
}.

(** The declared column constraints ([ge=0] on both snapshots). *)
Definition valid (m : t) : Prop := 0 <= previous_stock m /\ 0 <= new_stock m.

End StockMovement.

(** The sum of the line totals, as the specification words it: the total of
    the first line plus the sum of the others, in exact arithmetic. *)
Fixpoint sum_of_line_totals (ls : list TransactionItem.t) : Decimal :=
  match ls with
  | [] => 0
  | l :: ls' => TransactionItem.total_price l + sum_of_line_totals ls'
  end.

(** ** The Stock Ledger (specification, section 4.4)

    The source declares the [StockMovement] table and nothing that writes
    it; the operation below follows the four numbered steps of the
    specification. *)

(** Modelled from the spec: the movement types [{Sale, Adjustment, Restock}]
    of section 3; the source has a free [str] column, commented
    ['SALE', 'ADJUSTMENT', 'RESTOCK']. *)
Inductive MovementType : Type := Sale | Adjustment | Restock.

Definition MovementType_value (m : MovementType) : string :=
  match m with
  | Sale => "SALE"
  | Adjustment => "ADJUSTMENT"
  | Restock => "RESTOCK"
  end.

Module StockLedger.

(** Modelled from the spec: the state the ledger works on, which the source
    leaves to the persistence store: the Items by identifier (the lookup is
    taken total: every identifier a line or a movement refers to denotes an
    Item) and the append-only list of entries, oldest first. *)
Record t : Type := mk {
  items : Z -> Item.t;
  entries : list StockMovement.t
}.

Definition update_item (k : Z) (i : Item.t) (f : Z -> Item.t) : Z -> Item.t :=
  fun k' => if k' =? k then i else f k'.

(** Modelled from the spec: [apply_movement(item, movement_type,
    quantity_change, reason, actor, related_line_item?)], the operation of
    section 4.4 that is missing from the source.  [now] is the clock's
    timestamp; the entry's [id] is assigned by the store. *)
Definition apply_movement (item : Z) (movement_type : MovementType)
    (quantity_change : Z) (reason : string) (actor : Z)
    (related_line_item : option Z) (now : Z) : M t StockMovement.t :=
  previous_stock <- gets (fun s => Item.stock_quantity (items s item)) ;;
  let new_stock := previous_stock + quantity_change in
  if new_stock <? 0 then raise NegativeStockError
  else
    let entry :=
      StockMovement.mk None item related_line_item
        (MovementType_value movement_type) quantity_change
        previous_stock new_stock reason now actor in
    modify (fun s =>
      mk (update_item item (Item.set_stock_quantity new_stock (items s item)) (items s))
         (entries s ++ [entry])) ;;
    ret entry.

(** Modelled from the spec: the debits of [commit()] (section 4.5), one
    [Sale] movement of [-ecer_quantity] per line, in order, stopping at the
    first that fails; the earlier ones stay applied. *)
Fixpoint debit_lines (actor now : Z) (lines : list TransactionItem.t) : M t unit :=
  match lines with
  | [] => ret tt
  | l :: ls =>
      apply_movement (TransactionItem.item_id l) Sale
        (- TransactionItem.ecer_quantity l) EmptyString actor
        (TransactionItem.id l) now ;;
      debit_lines actor now ls
  end.

(** Every Item of the store has a stock that is not negative. *)
Definition stock_nonneg (s : t) : Prop :=
  forall k, 0 <= Item.stock_quantity (items s k).

End StockLedger.

(** ** The Transaction Aggregator (specification, section 4.5) *)

Module Aggregator.

(** Modelled from the spec: the state of one sale, which the source leaves
    to its callers: the transaction, whether [finalize] has succeeded on
    it, and the stock ledger. *)
Record t : Type := mk {
  txn : Transaction.t;
  finalized : bool;
  stock : StockLedger.t
}.

Definition status (s : t) : TransactionStatus := Transaction.status (txn s).
Definition lines (s : t) : list TransactionItem.t := Transaction.transaction_items (txn s).
Definition set_txn (x : Transaction.t) (s : t) : t := mk x (finalized s) (stock s).
Definition set_stock (l : StockLedger.t) (s : t) : t := mk (txn s) (finalized s) l.

(** A computation run on a snapshot of an object: its result is kept, what
    it assigns is not. *)
Definition on_snapshot {S T A} (snapshot : T) (m : M T A) : M S A :=
  fun s => (fst (m snapshot), s).

(** A new object [self] on which a method is called with the item, and
    which is then returned. *)
Definition construct {T I} (self : T) (m : M (T * I) unit) : M I T :=
  fun i =>
    match m (self, i) with
    | (Ok _, (self', i')) => (Ok self', i')
    | (Fail e, (_, i')) => (Fail e, i')
    end.

(** The key of the transaction, 0 before the store has assigned one. *)
Definition key_of (x : Transaction.t) : Z :=
  match Transaction.id x with Some k => k | None => 0 end.

(** Modelled from the spec: the Line Item Calculator of section 4.3 with
    its two failures.  The checks are not in the source; the calculation
    is [TransactionItem.calculate_totals]. *)
Definition guarded_line_item (transaction item : Z) (quantity : Z)
    (unit_mode : UnitType) : M Item.t TransactionItem.t :=
  if quantity <=? 0 then raise InvalidQuantity
  else
    enough <- Item.can_fulfill_order quantity unit_mode ;;
    if negb enough then raise InsufficientStock
    else
      construct
        (TransactionItem.mk None transaction item quantity unit_mode 0 0 0)
        TransactionItem.calculate_totals.

(** Modelled from the spec: [add_line(item, quantity, unit_mode)]. *)
Definition add_line (item : Z) (quantity : Z) (unit_mode : UnitType) : M t unit :=
  st <- gets status ;;
  if negb (TransactionStatus_eqb st PENDING) then raise InvalidStateTransition
  else
    x <- gets txn ;;
    snapshot <- gets (fun s => StockLedger.items (stock s) item) ;;
    line <- on_snapshot snapshot (guarded_line_item (key_of x) item quantity unit_mode) ;;
    let ls := Transaction.transaction_items x ++ [line] in
    modify (set_txn
      (Transaction.set_subtotal (py_sum (map TransactionItem.total_price ls) 0)
        (Transaction.set_transaction_items ls x))).

(** Modelled from the spec: [finalize(tax_amount, discount_amount,
    payment_amount)].  The totals are recomputed by
    [Transaction.calculate_totals]; a failure leaves the transaction as it
    was (section 7: no error leaves the model partially updated). *)
Definition finalize (tax_amount discount_amount payment_amount : Decimal) : M t unit :=
  st <- gets status ;;
  ls <- gets lines ;;
  if negb (TransactionStatus_eqb st PENDING) || (List.length ls =? 0)%nat
  then raise InvalidStateTransition
  else
    x <- gets txn ;;
    let candidate :=
      state_after (Transaction.calculate_totals
        (Transaction.set_payment_amount payment_amount
          (Transaction.set_discount_amount discount_amount
            (Transaction.set_tax_amount tax_amount x)))) in
    if payment_amount <? Transaction.total_amount candidate
    then raise InvalidPayment
    else modify (fun s => mk candidate true (stock s)).

(** Modelled from the spec: [commit()]. *)
Definition commit (now : Z) : M t unit :=
  st <- gets status ;;
  fin <- gets finalized ;;
  if negb (TransactionStatus_eqb st PENDING) || negb fin
  then raise InvalidStateTransition
  else
    x <- gets txn ;;
    zoom stock set_stock
      (StockLedger.debit_lines (Transaction.user_id x) now
         (Transaction.transaction_items x)) ;;
    modify (fun s => set_txn (Transaction.set_status COMPLETED (txn s)) s).

(** Modelled from the spec: [cancel()]. *)
Definition cancel : M t unit :=
  st <- gets status ;;
  if TransactionStatus_eqb st PENDING
  then modify (fun s => set_txn (Transaction.set_status CANCELLED (txn s)) s)
  else raise InvalidStateTransition.

(** Modelled from the spec: the four requests of section 4.5, as data. *)
Inductive Op : Type :=
| AddLine (item quantity : Z) (unit_mode : UnitType)
| Finalize (tax_amount discount_amount payment_amount : Decimal)
| Commit (now : Z)
| Cancel.

Definition run (o : Op) : M t unit :=
  match o with
  | AddLine i q u => add_line i q u
  | Finalize tax d p => finalize tax d p
  | Commit now => commit now
  | Cancel => cancel
  end.

(** A sequence of requests, each on the state the previous one left,
    whether it succeeded or failed. *)
Fixpoint run_all (os : list Op) (s : t) : t :=
  match os with
  | [] => s
  | o :: os' => run_all os' (state_after (run o s))
  end.

(** Modelled from the spec: the transitions of the status machine of
    section 3, [Pending -> Completed] and [Pending -> Cancelled]. *)
Inductive transition : TransactionStatus -> TransactionStatus -> Prop :=
| Pending_Completed : transition PENDING COMPLETED
| Pending_Cancelled : transition PENDING CANCELLED.

(** Modelled from the spec: the two terminal states. *)
Definition terminal (st : TransactionStatus) : Prop :=
  st = COMPLETED \/ st = CANCELLED.

End Aggregator.

(** ** The values of the string enumerations

    [UserRole], [UnitType] and [TransactionStatus] are [str] enumerations:
    a member is stored, and compared by [==], as its value. *)

Inductive UserRole : Type := ADMIN | KASIR.

Definition UserRole_value (r : UserRole) : string :=
  match r with
  | ADMIN => "Admin"
  | KASIR => "Kasir"
  end.

Definition UnitType_value (u : UnitType) : string :=
  match u with
  | ECER => "Ecer"
  | GROSIR => "Grosir"
  end.

Definition TransactionStatus_value (st : TransactionStatus) : string :=
  match st with
  | PENDING => "Pending"
  | COMPLETED => "Completed"
  | CANCELLED => "Cancelled"
  end.

(** ** Identifier generation: [generate_barcode], [generate_transaction_number]

    Neither method reads or assigns an attribute of [self]; what they
    depend on is the system's random source and, for the transaction
    number, the clock. *)

Module Secrets.

(** [string.ascii_uppercase] and [string.digits]. *)
Definition ascii_uppercase : string := "ABCDEFGHIJKLMNOPQRSTUVWXYZ".
Definition digits : string := "0123456789".

Section RandomSource.

(** The random source: its state, and [randbelow n], which draws an index
    for a sequence of length [n]. *)
Variable Rng : Type.
Variable randbelow : nat -> Rng -> nat * Rng.

(** [secrets.choice(seq)] is [seq[randbelow(len(seq))]]; [None] stands for
    the [IndexError] of an index out of range. *)
Definition choice (seq : string) (r : Rng) : option ascii * Rng :=
  match randbelow (String.length seq) r with
  | (k, r') => (String.get k seq, r')
  end.

(** The join of [n] choices among [characters], drawn first to last:
    ["".join(secrets.choice(characters) for _ in range(n))]. *)
Fixpoint join_choices (n : nat) (characters : string) (r : Rng) : option string * Rng :=
  match n with
  | O => (Some EmptyString, r)
  | Datatypes.S n' =>
      match choice characters r with
      | (Some c, r') =>
          match join_choices n' characters r' with
          | (Some s, r'') => (Some (String c s), r'')
          | (None, r'') => (None, r'')
          end
      | (None, r') => (None, r')
      end
  end.

End RandomSource.

(** What a random source guarantees: an index below the length. *)
Definition in_range {Rng} (randbelow : nat -> Rng -> nat * Rng) : Prop :=
  forall (n : nat) (r : Rng), (0 < n)%nat -> (fst (randbelow n r) < n)%nat.

(** A random source that replays a tape of numbers, reduced modulo the
    length asked for; 0 once the tape is used up. *)
Definition replay (n : nat) (tape : list nat) : nat * list nat :=
  match tape with
  | [] => (O, [])
  | x :: tape' => (Nat.modulo x n, tape')
  end.

End Secrets.

Module Datetime.

(** A [datetime], to the second.  The type keeps the month within 1..12,
    the day within 1..31, the hour below 24, minute and second below 60,
    and the year within 1..9999. *)
Record t : Type := mk {
  year : nat;
  month : nat;
  day : nat;
  hour : nat;
  minute : nat;
  second : nat
}.

(** The datetimes with a year of four digits: for an earlier year [%Y] is
    not zero padded on every platform. *)
Definition valid (d : t) : Prop :=
  1000 <= Z.of_nat (year d) <= 9999 /\
  (1 <= month d <= 12 /\ 1 <= day d <= 31 /\
   hour d < 24 /\ minute d < 60 /\ second d < 60)%nat.

Definition digit (d : nat) : ascii := ascii_of_nat (48 + d).

(** A number below 100 on two digits, below 10000 on four, zero padded. *)
Definition two_digits (n : nat) (rest : string) : string :=
  String (digit (n / 10)) (String (digit (Nat.modulo n 10)) rest).

Definition four_digits (n : nat) (rest : string) : string :=
  String (digit (n / 1000))
    (String (digit (Nat.modulo (n / 100) 10))
       (String (digit (Nat.modulo (n / 10) 10))
          (String (digit (Nat.modulo n 10)) rest))).

(** [strftime("%Y%m%d%H%M%S")], followed by [rest]. *)
Definition strftime_YmdHMS (d : t) (rest : string) : string :=
  four_digits (year d)
    (two_digits (month d)
       (two_digits (day d)
          (two_digits (hour d)
             (two_digits (minute d)
                (two_digits (second d) rest))))).

End Datetime.

(** [Item.generate_barcode]: 10 characters among the upper case letters
    and the digits. *)
Definition generate_barcode {Rng} (randbelow : nat -> Rng -> nat * Rng)
    (r : Rng) : option string * Rng :=
  let characters := (Secrets.ascii_uppercase ++ Secrets.digits)%string in
  Secrets.join_choices Rng randbelow 10 characters r.

(** [Transaction.generate_transaction_number]: ["TXN"], the UTC time [now]
    read from the clock, and 4 random digits. *)
Definition generate_transaction_number {Rng} (randbelow : nat -> Rng -> nat * Rng)
    (now : Datetime.t) (r : Rng) : option string * Rng :=
  match Secrets.join_choices Rng randbelow 4 Secrets.digits r with
  | (Some random_suffix, r') =>
      (Some ("TXN" ++ Datetime.strftime_YmdHMS now random_suffix)%string, r')
  | (None, r') => (None, r')
  end.

(** The declared [max_length] of the two columns. *)
Definition barcode_max_length : nat := 20.
Definition transaction_number_max_length : nat := 50.

(** Is the character a digit, an upper case letter. *)
Definition is_digit (c : ascii) : bool :=
  ((48 <=? nat_of_ascii c) && (nat_of_ascii c <=? 57))%nat.

Definition is_upper (c : ascii) : bool :=
  ((65 <=? nat_of_ascii c) && (nat_of_ascii c <=? 90))%nat.

(** Every character of the string passes the test. *)
Fixpoint string_forall (p : ascii -> bool) (s : string) : bool :=
  match s with
  | EmptyString => true
  | String c s' => p c && string_forall p s'
  end.

(** The lines calculated from (line, item) pairs, each by
    [TransactionItem.calculate_totals]. *)
Definition calculate_lines (pairs : list (TransactionItem.t * Item.t)) : list TransactionItem.t :=
  map (fun p => fst (state_after (TransactionItem.calculate_totals p))) pairs.

(** The price of the item for the unit type, and the quantity times it. *)
Definition price_of (i : Item.t) (u : UnitType) : Decimal :=
  match u with
  | GROSIR => Item.wholesale_selling_price i
  | ECER => Item.retail_selling_price i
  end.

Fixpoint sum_of_quantity_times_price (pairs : list (TransactionItem.t * Item.t)) : Decimal :=
  match pairs with
  | [] => 0
  | (l, i) :: rest =>
      TransactionItem.quantity l * price_of i (TransactionItem.unit_type l)
      + sum_of_quantity_times_price rest
  end.

(** ** Amounts on which the decimal context does not round

    A result of fewer than 29 digits (in cents: below [10^28], that is
    [10^26] units of currency) is exact. *)

Fixpoint sum_of_magnitudes (ls : list TransactionItem.t) : Z :=
  match ls with
  | [] => 0
  | l :: ls' => Z.abs (TransactionItem.total_price l) + sum_of_magnitudes ls'
  end.

(** The line totals, the tax, the discount and the payment of the
    transaction add up, in absolute value, to fewer than 29 digits: no sum
    or difference [Transaction.calculate_totals] forms is rounded. *)
Definition within_precision (x : Transaction.t) : Prop :=
  sum_of_magnitudes (Transaction.transaction_items x)
  + Z.abs (Transaction.tax_amount x)
  + Z.abs (Transaction.discount_amount x)
  + Z.abs (Transaction.payment_amount x) < 10 ^ context_prec.

(** The same for the products the line calculation forms. *)
Fixpoint sum_of_product_magnitudes (pairs : list (TransactionItem.t * Item.t)) : Z :=
  match pairs with
  | [] => 0
  | (l, i) :: rest =>
      Z.abs (TransactionItem.quantity l * price_of i (TransactionItem.unit_type l))
      + sum_of_product_magnitudes rest
  end.

(** [sys.get_int_max_str_digits()]: the longest integer [str] converts,
    in digits (CPython 3.11 and later). *)
Definition int_max_str_digits : Z := 4300.

(** [decimal.getcontext().Emax]: a result is within the exponent range of
    the context when, as a number of units of currency, it is below
    [10^(Emax+1)]: in cents, below [10^(Emax+3)]. *)
Definition context_Emax : Z := 999999.

(** ** Closed forms of the two [calculate_totals] methods

    Proved below to be what the methods leave behind. *)

(** The line that [TransactionItem.calculate_totals] leaves. *)
Definition calculated (l : TransactionItem.t) (i : Item.t) : TransactionItem.t :=
  let price :=
    match TransactionItem.unit_type l with
    | GROSIR => Item.wholesale_selling_price i
    | ECER => Item.retail_selling_price i
    end in
  TransactionItem.mk
    (TransactionItem.id l) (TransactionItem.transaction_id l)
    (TransactionItem.item_id l) (TransactionItem.quantity l)
    (TransactionItem.unit_type l)
    price
    (Decimal_mul_int (TransactionItem.quantity l) price)
    match TransactionItem.unit_type l with
    | GROSIR => TransactionItem.quantity l * Item.quantity_per_wholesale i
    | ECER => TransactionItem.quantity l
    end.

(** The transaction that [Transaction.calculate_totals] leaves. *)
Definition totalled (x : Transaction.t) : Transaction.t :=
  let sub := py_sum (map TransactionItem.total_price (Transaction.transaction_items x)) 0 in
  let total :=
    Decimal_sub (Decimal_add sub (Transaction.tax_amount x))
      (Transaction.discount_amount x) in
  Transaction.mk
    (Transaction.id x) (Transaction.transaction_number x) (Transaction.user_id x)
    sub (Transaction.tax_amount x) (Transaction.discount_amount x) total
    (Transaction.payment_amount x)
    (Z.max 0 (Decimal_sub (Transaction.payment_amount x) total))
    (Transaction.status x) (Transaction.notes x) (Transaction.transaction_items x).

(** ** Sample data: the scenarios of the specification *)

(** An Item with [stock_quantity=10] and [quantity_per_wholesale=5]. *)
Definition sample_item : Item.t :=
  Item.mk (Some 1) "A1B2C3D4E5" "Beras" 1 40000 50000 5 9000 11000 10 2 true.

(** The same Item after its retail selling price was raised. *)
Definition repriced_item : Item.t :=
  Item.set_retail_selling_price 12000 sample_item.

(** A line before its totals are calculated. *)
Definition new_line (quantity : Z) (unit_type : UnitType) : TransactionItem.t :=
  TransactionItem.mk None 1 1 quantity unit_type 0 0 0.

(** A line of 2 Ecer, calculated at the time of the sale. *)
Definition sold_line : TransactionItem.t :=
  fst (state_after (TransactionItem.calculate_totals (new_line 2 ECER, sample_item))).

Definition sample_store : StockLedger.t :=
  StockLedger.mk (fun _ => sample_item) [].

(** Two lines totalling 15000. *)
Definition two_lines : list TransactionItem.t :=
  [ TransactionItem.mk (Some 1) 1 1 1 ECER 5000 5000 1;
    TransactionItem.mk (Some 2) 1 1 2 ECER 5000 10000 2 ].

Definition empty_transaction : Transaction.t :=
  Transaction.mk (Some 1) "TXN202401010000000001" 7 0 0 0 0 0 0 PENDING EmptyString [].

Definition two_line_transaction : Transaction.t :=
  Transaction.set_subtotal 15000
    (Transaction.set_transaction_items two_lines empty_transaction).

Definition pending_sale : Aggregator.t :=
  Aggregator.mk two_line_transaction false sample_store.

Definition finalized_sale : Aggregator.t :=
  state_after (Aggregator.finalize 1500 500 17000 pending_sale).

Definition completed_sale : Aggregator.t :=
  state_after (Aggregator.commit 1700000000 finalized_sale).

(** Amounts of 28 and 29 digits: 33333333333333333333333333.33 as a
    price, and lines of 99999999999999999999999999.99 and 0.02. *)
Definition costly_item : Item.t :=
  Item.set_retail_selling_price 3333333333333333333333333333 sample_item.

Definition large_lines : list TransactionItem.t :=
  [ TransactionItem.mk (Some 1) 1 1 1 ECER
      9999999999999999999999999999 9999999999999999999999999999 1;
    TransactionItem.mk (Some 2) 1 1 1 ECER 2 2 1 ].

Definition large_transaction : Transaction.t :=
  Transaction.set_transaction_items large_lines empty_transaction.

(** No line, a tax of 100000000000000000000000000.06 and a discount of
    100000000000000000000000000.07. *)
Definition large_discount_transaction : Transaction.t :=
  Transaction.set_discount_amount 10000000000000000000000000007
    (Transaction.set_tax_amount 10000000000000000000000000006
       empty_transaction).

(** The two-line transaction with tax 1500, discount 500, payment 17000. *)
Definition paid_transaction : Transaction.t :=
  Transaction.set_payment_amount 17000
    (Transaction.set_discount_amount 500
       (Transaction.set_tax_amount 1500 two_line_transaction)).

(** The first second of 2024, UTC. *)
Definition new_year_2024 : Datetime.t := Datetime.mk 2024 1 1 0 0 0.

(** * Facts about the methods of the source *)

Section MethodRuns.

(** What each method returns and the state it leaves, in closed form. *)

Lemma get_price_by_unit_run (u : UnitType) (i : Item.t) :
  Item.get_price_by_unit u i =
  (Ok (match u with
       | GROSIR => Item.wholesale_selling_price i
       | ECER => Item.retail_selling_price i
       end), i).
Proof. destruct u; reflexivity. Qed.

Lemma convert_to_ecer_quantity_run (q : Z) (u : UnitType) (i : Item.t) :
  Item.convert_to_ecer_quantity q u i =
  (Ok (match u with
       | GROSIR => q * Item.quantity_per_wholesale i
       | ECER => q
       end), i).
Proof. destruct u; reflexivity. Qed.

Lemma can_fulfill_order_run (q : Z) (u : UnitType) (i : Item.t) :
  Item.can_fulfill_order q u i =
  (Ok (Item.stock_quantity i >=?
       match u with
       | GROSIR => q * Item.quantity_per_wholesale i
       | ECER => q
       end), i).
Proof. destruct u; reflexivity. Qed.

Lemma line_calculate_totals_run (l : TransactionItem.t) (i : Item.t) :
  TransactionItem.calculate_totals (l, i) = (Ok tt, (calculated l i, i)).
Proof.
  destruct l as [lid tid iid q u p tp e]; destruct u; reflexivity.
Qed.

(** *** The rounding of the decimal context *)

Lemma pow10_pos (k : Z) : 0 <= k -> 0 < 10 ^ k.
Proof. intro Hk. apply Z.pow_pos_nonneg; lia. Qed.

(** A result of at most 28 digits is not rounded. *)
Lemma Decimal_round_exact (v : Z) :
  Z.abs v < 10 ^ context_prec -> Decimal_round v = v.
Proof.
  intro H. unfold Decimal_round. apply Z.ltb_lt in H. rewrite H. reflexivity.
Qed.

Lemma excess_digits_nonneg (fuel : nat) : forall a, 0 <= excess_digits fuel a.
Proof.
  induction fuel as [| f IH]; intro a; cbn [excess_digits]; [lia |].
  destruct (a <? _); [lia |]. specialize (IH (a / 10)). lia.
Qed.

(** The digits dropped leave at least 28. *)
Lemma excess_digits_lower (fuel : nat) :
  forall a, 10 ^ 27 <= a -> 10 ^ excess_digits fuel a * 10 ^ 27 <= a.
Proof.
  induction fuel as [| f IH]; intros a Ha; cbn [excess_digits].
  - change (10 ^ 0) with 1. lia.
  - destruct (Z.ltb_spec a (10 ^ context_prec)) as [Hlt | Hge].
    + change (10 ^ 0) with 1. lia.
    + rewrite Z.pow_add_r by (try lia; apply excess_digits_nonneg).
      change (10 ^ 1) with 10.
      assert (H10 : 10 ^ 27 <= a / 10).
      { apply Z.div_le_lower_bound; [lia |].
        change (10 ^ context_prec) with (10 * 10 ^ 27) in Hge. lia. }
      specialize (IH (a / 10) H10).
      pose proof (Z.mul_div_le a 10 ltac:(lia)). nia.
Qed.

(** With enough fuel, they leave at most 28. *)
Lemma excess_digits_upper (fuel : nat) :
  forall a, 0 <= a < 2 ^ Z.of_nat fuel ->
  a / 10 ^ excess_digits fuel a < 10 ^ context_prec.
Proof.
  induction fuel as [| f IH]; intros a Ha; cbn [excess_digits].
  - change (10 ^ 0) with 1. rewrite Z.div_1_r.
    change (2 ^ Z.of_nat 0) with 1 in Ha.
    assert (a = 0) as -> by lia. reflexivity.
  - destruct (Z.ltb_spec a (10 ^ context_prec)) as [Hlt | Hge].
    + change (10 ^ 0) with 1. rewrite Z.div_1_r. exact Hlt.
    + rewrite Z.pow_add_r by (try lia; apply excess_digits_nonneg).
      change (10 ^ 1) with 10.
      rewrite <- Z.div_div
        by (try lia; apply pow10_pos; apply excess_digits_nonneg).
      apply IH. split; [apply Z.div_pos; lia |].
      apply Z.div_lt_upper_bound; [lia |].
      rewrite Nat2Z.inj_succ, Z.pow_succ_r in Ha by lia. lia.
Qed.

(** What [Decimal_round] returns for a number of more than 28 digits: the
    nearest multiple of a power of ten with a coefficient of 28 digits
    ([10^28] when the digits kept are all nines and are raised), the one
    with an even coefficient when two are as near. *)
Lemma Decimal_round_spec (v : Z) :
  10 ^ context_prec <= Z.abs v ->
  exists k q : Z,
    1 <= k /\ 10 ^ 27 <= q <= 10 ^ context_prec /\
    Decimal_round v = Z.sgn v * (q * 10 ^ k) /\
    2 * Z.abs (Z.abs v - q * 10 ^ k) <= 10 ^ k /\
    (2 * Z.abs (Z.abs v - q * 10 ^ k) = 10 ^ k -> Z.even q = true).
Proof.
  intro Hge. unfold Decimal_round.
  destruct (Z.ltb_spec (Z.abs v) (10 ^ context_prec)) as [Hlt | _]; [lia |].
  set (a := Z.abs v) in *.
  set (fuel := Z.to_nat (Z.log2 a)).
  set (k := excess_digits (S fuel) a).
  pose proof (pow10_pos 27 ltac:(lia)) as H27.
  assert (Ha27 : 10 ^ 27 <= a).
  { change (10 ^ context_prec) with (10 * 10 ^ 27) in Hge. lia. }
  pose proof (excess_digits_lower (S fuel) a Ha27) as Hlow. fold k in Hlow.
  assert (Hk1 : 1 <= k).
  { subst k. cbn [excess_digits].
    destruct (Z.ltb_spec a (10 ^ context_prec)) as [Hlt | _]; [lia |].
    pose proof (excess_digits_nonneg fuel (a / 10)). lia. }
  pose proof (pow10_pos k ltac:(lia)) as Hunit.
  assert (Hup : a / 10 ^ k < 10 ^ context_prec).
  { apply excess_digits_upper. split; [lia |].
    subst fuel. rewrite Nat2Z.inj_succ, Z2Nat.id by apply Z.log2_nonneg.
    apply Z.log2_spec. lia. }
  assert (Hq : 10 ^ 27 <= a / 10 ^ k).
  { apply Z.div_le_lower_bound; [exact Hunit | lia]. }
  pose proof (Z.div_mod a (10 ^ k) ltac:(lia)) as Hdm.
  pose proof (Z.mod_pos_bound a (10 ^ k) Hunit) as Hr.
  assert (Heven : exists h, 10 ^ k = 2 * h).
  { exists (5 * 10 ^ (k - 1)).
    replace k with (1 + (k - 1)) at 1 by lia.
    rewrite Z.pow_add_r by lia. change (10 ^ 1) with 10. lia. }
  destruct Heven as [h Hh].
  set (q := a / 10 ^ k) in *.
  set (r := a mod 10 ^ k) in *.
  exists k.
  destruct (Z.ltb_spec (2 * r) (10 ^ k)) as [Hlow2 | Hhigh2].
  - exists q. repeat split; try lia.
  - destruct (Z.ltb_spec (10 ^ k) (2 * r)) as [Hup2 | Htie].
    + exists (q + 1). repeat split; try lia.
    + destruct (Z.even q) eqn:Hev.
      * exists q. repeat split; try lia. intros _. exact Hev.
      * exists (q + 1). repeat split; try lia.
        intros _. rewrite Z.even_add, Hev. reflexivity.
Qed.

(** Rounding keeps the sign. *)
Lemma Decimal_round_sign (v : Z) :
  (0 < v -> 0 < Decimal_round v) /\
  (v < 0 -> Decimal_round v < 0) /\
  (v = 0 -> Decimal_round v = 0).
Proof.
  destruct (Z.lt_ge_cases (Z.abs v) (10 ^ context_prec)) as [Hlt | Hge].
  - rewrite (Decimal_round_exact v Hlt). repeat split; intros; lia.
  - destruct (Decimal_round_spec v Hge) as (k & q & Hk & Hq & -> & _).
    pose proof (pow10_pos 27 ltac:(lia)) as H27.
    pose proof (pow10_pos k ltac:(lia)) as Hunit.
    assert (Hpos : 0 < q * 10 ^ k) by (apply Z.mul_pos_pos; lia).
    repeat split; intro Hv.
    + rewrite (Z.sgn_pos v Hv). lia.
    + rewrite (Z.sgn_neg v Hv). lia.
    + subst v. reflexivity.
Qed.

Lemma Decimal_round_nonneg (v : Z) : 0 <= v -> 0 <= Decimal_round v.
Proof.
  intro Hv. destruct (Decimal_round_sign v) as (Hp & _ & Hz).
  destruct (Z.eq_dec v 0) as [-> | Hne]; [rewrite Hz; lia |].
  assert (0 < v) as Hpos by lia. specialize (Hp Hpos). lia.
Qed.

(** *** Python's [sum] *)

(** Below 29 digits [sum] is the exact sum. *)
Lemma py_sum_exact (xs : list Decimal) :
  forall start : Decimal,
  Z.abs start + fold_right (fun x acc => Z.abs x + acc) 0 xs < 10 ^ context_prec ->
  py_sum xs start = start + fold_right Z.add 0 xs /\
  Z.abs (py_sum xs start) < 10 ^ context_prec.
Proof.
  unfold py_sum.
  induction xs as [| x xs IH]; intros start Hb; cbn [fold_left fold_right] in *.
  - split; lia.
  - assert (Hsum : Decimal_add start x = start + x).
    { apply Decimal_round_exact.
      assert (0 <= fold_right (fun x acc => Z.abs x + acc) 0 xs)
        by (clear; induction xs; cbn [fold_right]; lia).
      lia. }
    rewrite Hsum.
    destruct (IH (start + x)) as [IH1 IH2]; [lia |].
    split; [rewrite IH1; lia | exact IH2].
Qed.

Lemma sum_of_magnitudes_fold (ls : list TransactionItem.t) :
  fold_right (fun x acc => Z.abs x + acc) 0 (map TransactionItem.total_price ls)
  = sum_of_magnitudes ls.
Proof. induction ls as [| l ls IH]; simpl; [reflexivity | rewrite IH; reflexivity]. Qed.

Lemma sum_of_line_totals_fold (ls : list TransactionItem.t) :
  fold_right Z.add 0 (map TransactionItem.total_price ls) = sum_of_line_totals ls.
Proof. induction ls as [| l ls IH]; simpl; [reflexivity | rewrite IH; reflexivity]. Qed.

Lemma sum_of_magnitudes_nonneg (ls : list TransactionItem.t) :
  0 <= sum_of_magnitudes ls.
Proof. induction ls as [| l ls IH]; simpl; lia. Qed.

Lemma sum_of_line_totals_bound (ls : list TransactionItem.t) :
  Z.abs (sum_of_line_totals ls) <= sum_of_magnitudes ls.
Proof. induction ls as [| l ls IH]; simpl; lia. Qed.

Lemma py_sum_line_totals (ls : list TransactionItem.t) :
  sum_of_magnitudes ls < 10 ^ context_prec ->
  py_sum (map TransactionItem.total_price ls) 0 = sum_of_line_totals ls.
Proof.
  intro Hb.
  destruct (py_sum_exact (map TransactionItem.total_price ls) 0) as [H _].
  - rewrite sum_of_magnitudes_fold. simpl. exact Hb.
  - rewrite H, sum_of_line_totals_fold. reflexivity.
Qed.

(** The sum of amounts that are not negative is not negative. *)
Lemma py_sum_nonneg (xs : list Decimal) :
  forall start : Decimal,
  0 <= start -> Forall (fun x => 0 <= x) xs -> 0 <= py_sum xs start.
Proof.
  unfold py_sum.
  induction xs as [| x xs IH]; intros start Hs Hall; cbn [fold_left].
  - exact Hs.
  - inversion Hall as [| ? ? Hx Hxs]; subst.
    apply IH; [| exact Hxs].
    apply Decimal_round_nonneg. lia.
Qed.

Lemma transaction_calculate_totals_run (x : Transaction.t) :
  Transaction.calculate_totals x = (Ok tt, totalled x).
Proof. reflexivity. Qed.

(** A method that returns without assigning returns the same every time. *)
Lemma calls_read_only {S A} (m : M S A) (s : S) (a : A) :
  m s = (Ok a, s) -> forall n, calls n m s = (repeat (Ok a) n, s).
Proof.
  intros Hm n. induction n as [| n IH]; simpl.
  - reflexivity.
  - rewrite Hm, IH. reflexivity.
Qed.

End MethodRuns.

(** * Item unit logic *)

(** C3: for every item and every quantity [q > 0], converting [q] Ecer
    (retail) units to the base unit returns [q], and converting [q] Grosir
    (wholesale) units returns [q * quantity_per_wholesale]; neither call
    assigns anything to the item. *)
Theorem convert_to_ecer_quantity_spec (i : Item.t) (q : Z) (Hq : 0 < q) :
  Item.convert_to_ecer_quantity q ECER i = (Ok q, i) /\
  Item.convert_to_ecer_quantity q GROSIR i =
    (Ok (q * Item.quantity_per_wholesale i), i).
Proof.
  split; rewrite convert_to_ecer_quantity_run; reflexivity.
Qed.

Lemma convert_to_ecer_quantity_spec_witness :
  0 < 3 /\
  Item.convert_to_ecer_quantity 3 ECER sample_item = (Ok 3, sample_item) /\
  Item.convert_to_ecer_quantity 3 GROSIR sample_item = (Ok 15, sample_item).
Proof.
  split.
  - reflexivity.
  - apply (convert_to_ecer_quantity_spec sample_item 3). reflexivity.
Defined.

(** C8: for every item, quantity and unit type, [can_fulfill_order] returns
    [True] exactly when [stock_quantity] is at least the quantity converted
    to the base unit; it assigns nothing to the item, so any number of
    calls in a row return the same answer and leave the item as it was. *)
Theorem can_fulfill_order_read_only (i : Item.t) (q : Z) (u : UnitType) :
  exists (required : Z) (answer : bool),
    Item.convert_to_ecer_quantity q u i = (Ok required, i) /\
    Item.can_fulfill_order q u i = (Ok answer, i) /\
    (answer = true <-> Item.stock_quantity i >= required) /\
    forall n : nat,
      calls n (Item.can_fulfill_order q u) i = (repeat (Ok answer) n, i).
Proof.
  pose proof (can_fulfill_order_run q u i) as Hrun.
  eexists. eexists.
  split; [apply convert_to_ecer_quantity_run |].
  split; [exact Hrun |].
  split.
  - rewrite Z.geb_le. lia.
  - apply calls_read_only. exact Hrun.
Qed.

(** * Line items *)

(** C7, the claim refuted: 7 Ecer at 33333333333333333333333333.33 each.
    The product has 29 digits, 233333333333333333333333333.31; the line
    gets [total_price] 233333333333333333333333333.30, the product rounded
    to 28 significant digits. *)
Lemma line_total_price_rounded :
  TransactionItem.calculate_totals (new_line 7 ECER, costly_item) =
    (Ok tt,
     (TransactionItem.mk None 1 1 7 ECER
        3333333333333333333333333333 23333333333333333333333333330 7,
      costly_item)) /\
  7 * 3333333333333333333333333333 = 23333333333333333333333333331.
Proof. split; reflexivity. Qed.

(** C7, as amended: for every item, and every line whose quantity is
    positive, when the item's [quantity_per_wholesale] is positive,
    [calculate_totals] leaves a line whose [unit_price] is the item's price
    for the line's unit type (wholesale selling price for Grosir, retail
    selling price for Ecer), whose [total_price] is the decimal product
    [quantity * unit_price], that is the product rounded to 28 significant
    digits, and is the exact product when that has at most 28 digits, whose
    [ecer_quantity] is the item's conversion of the quantity, and is
    positive. *)
Theorem line_item_calculation (l : TransactionItem.t) (i : Item.t)
    (Hq : 0 < TransactionItem.quantity l)
    (Hw : 0 < Item.quantity_per_wholesale i) :
  exists l' : TransactionItem.t,
    TransactionItem.calculate_totals (l, i) = (Ok tt, (l', i)) /\
    TransactionItem.quantity l' = TransactionItem.quantity l /\
    TransactionItem.unit_type l' = TransactionItem.unit_type l /\
    Item.get_price_by_unit (TransactionItem.unit_type l) i =
      (Ok (TransactionItem.unit_price l'), i) /\
    TransactionItem.unit_price l' =
      match TransactionItem.unit_type l with
      | GROSIR => Item.wholesale_selling_price i
      | ECER => Item.retail_selling_price i
      end /\
    TransactionItem.total_price l' =
      Decimal_mul_int (TransactionItem.quantity l) (TransactionItem.unit_price l') /\
    (Z.abs (TransactionItem.quantity l * TransactionItem.unit_price l')
       < 10 ^ context_prec ->
     TransactionItem.total_price l' =
       TransactionItem.quantity l * TransactionItem.unit_price l') /\
    Item.convert_to_ecer_quantity
      (TransactionItem.quantity l) (TransactionItem.unit_type l) i =
      (Ok (TransactionItem.ecer_quantity l'), i) /\
    0 < TransactionItem.ecer_quantity l'.
Proof.
  exists (calculated l i).
  rewrite line_calculate_totals_run, get_price_by_unit_run,
    convert_to_ecer_quantity_run.
  split; [reflexivity |]. split; [reflexivity |]. split; [reflexivity |].
  split; [reflexivity |]. split; [reflexivity |]. split; [reflexivity |].
  split; [intro Hfit; apply Decimal_round_exact; exact Hfit |].
  split; [reflexivity |].
  unfold calculated; cbn [TransactionItem.ecer_quantity].
  destruct (TransactionItem.unit_type l); nia.
Qed.

Lemma line_item_calculation_witness :
  exists l' : TransactionItem.t,
    TransactionItem.calculate_totals (new_line 1 GROSIR, sample_item) =
      (Ok tt, (l', sample_item)) /\
    TransactionItem.unit_price l' = 50000 /\
    TransactionItem.total_price l' = 50000 /\
    TransactionItem.ecer_quantity l' = 5.
Proof.
  destruct (line_item_calculation (new_line 1 GROSIR) sample_item
              eq_refl eq_refl)
    as (l' & Hrun & _ & _ & _ & Hp & _ & Ht & Hc & _).
  exists l'. split; [exact Hrun |].
  simpl in Hp, Ht, Hc.
  split; [exact Hp |].
  split.
  - rewrite Ht; rewrite Hp; reflexivity.
  - injection Hc as Hc. symmetry. exact Hc.
Defined.

(** C4, as amended: the calculation validates nothing: it raises neither
    [InvalidQuantity] nor [InsufficientStock].  For every line and every
    item, whatever the quantity (zero and negative included) and whatever
    the stock, as long as [str] converts the quantity (fewer than 4301
    digits) and the product stays within the exponent range of the decimal
    context, [calculate_totals] returns and leaves the line with its three
    attributes assigned ([total_price] being the decimal product of the
    quantity and the unit price) and the item untouched.  Rejecting a
    quantity [<= 0] or an order that [can_fulfill_order] refuses is left to
    the caller. *)
Theorem line_item_calculation_total (l : TransactionItem.t) (i : Item.t)
    (Hstr : Z.abs (TransactionItem.quantity l) < 10 ^ int_max_str_digits)
    (Hexp : Z.abs (Decimal_mul_int (TransactionItem.quantity l)
                     (price_of i (TransactionItem.unit_type l)))
            < 10 ^ (context_Emax + 3)) :
  exists l' : TransactionItem.t,
    TransactionItem.calculate_totals (l, i) = (Ok tt, (l', i)) /\
    Item.get_price_by_unit (TransactionItem.unit_type l) i =
      (Ok (TransactionItem.unit_price l'), i) /\
    TransactionItem.total_price l' =
      Decimal_mul_int (TransactionItem.quantity l) (TransactionItem.unit_price l') /\
    Item.convert_to_ecer_quantity
      (TransactionItem.quantity l) (TransactionItem.unit_type l) i =
      (Ok (TransactionItem.ecer_quantity l'), i).
Proof.
  exists (calculated l i).
  rewrite line_calculate_totals_run, get_price_by_unit_run,
    convert_to_ecer_quantity_run.
  repeat split.
Qed.

Lemma line_item_calculation_total_witness :
  exists l' : TransactionItem.t,
    TransactionItem.calculate_totals (new_line (-3) GROSIR, sample_item) =
      (Ok tt, (l', sample_item)) /\
    Item.get_price_by_unit GROSIR sample_item =
      (Ok (TransactionItem.unit_price l'), sample_item) /\
    TransactionItem.total_price l' =
      Decimal_mul_int (-3) (TransactionItem.unit_price l') /\
    Item.convert_to_ecer_quantity (-3) GROSIR sample_item =
      (Ok (TransactionItem.ecer_quantity l'), sample_item).
Proof.
  apply (line_item_calculation_total (new_line (-3) GROSIR) sample_item).
  - reflexivity.
  - apply Z.lt_le_trans with (10 ^ 6); [reflexivity |].
    apply Z.pow_le_mono_r; [reflexivity | discriminate].
Defined.

(** C4, the claim refuted: a line of quantity 0 is calculated without
    [InvalidQuantity], and a line of 3 Grosir (15 Ecer) against a stock of
    10, which [can_fulfill_order] refuses, is calculated without
    [InsufficientStock]. *)
Lemma line_item_calculation_unguarded :
  (TransactionItem.quantity (new_line 0 GROSIR) <= 0 /\
   TransactionItem.calculate_totals (new_line 0 GROSIR, sample_item) =
     (Ok tt,
      (TransactionItem.mk None 1 1 0 GROSIR 50000 0 0, sample_item))) /\
  (Item.can_fulfill_order 3 GROSIR sample_item = (Ok false, sample_item) /\
   TransactionItem.calculate_totals (new_line 3 GROSIR, sample_item) =
     (Ok tt,
      (TransactionItem.mk None 1 1 3 GROSIR 50000 150000 15, sample_item))).
Proof.
  repeat split. discriminate.
Qed.

(** * Transaction totals *)

Section ExactTotals.

(** Within the precision, the three totals are the exact ones. *)
Lemma totalled_exact (x : Transaction.t) :
  within_precision x ->
  Transaction.subtotal (totalled x) =
    sum_of_line_totals (Transaction.transaction_items x) /\
  Transaction.total_amount (totalled x) =
    sum_of_line_totals (Transaction.transaction_items x)
    + Transaction.tax_amount x - Transaction.discount_amount x /\
  Transaction.change_amount (totalled x) =
    Z.max 0 (Transaction.payment_amount x
             - (sum_of_line_totals (Transaction.transaction_items x)
                + Transaction.tax_amount x - Transaction.discount_amount x)).
Proof.
  unfold within_precision. intro Hfit.
  pose proof (sum_of_magnitudes_nonneg (Transaction.transaction_items x)) as Hm.
  pose proof (sum_of_line_totals_bound (Transaction.transaction_items x)) as Hb.
  unfold totalled;
    cbn [Transaction.subtotal Transaction.total_amount Transaction.change_amount].
  rewrite py_sum_line_totals by lia.
  unfold Decimal_add, Decimal_sub.
  rewrite (Decimal_round_exact
             (sum_of_line_totals (Transaction.transaction_items x)
              + Transaction.tax_amount x)) by lia.
  rewrite (Decimal_round_exact
             (sum_of_line_totals (Transaction.transaction_items x)
              + Transaction.tax_amount x - Transaction.discount_amount x))
    by lia.
  rewrite Decimal_round_exact by lia.
  repeat split.
Qed.

End ExactTotals.

(** C2, the claim refuted: lines of 99999999999999999999999999.99 and
    0.02.  Their sum is 100000000000000000000000000.01; the subtotal that
    [calculate_totals] leaves is 100000000000000000000000000.00, the sum
    rounded to 28 significant digits. *)
Lemma subtotal_rounded :
  Transaction.subtotal (state_after (Transaction.calculate_totals large_transaction)) =
    10000000000000000000000000000 /\
  sum_of_line_totals (Transaction.transaction_items large_transaction) =
    10000000000000000000000000001.
Proof. split; reflexivity. Qed.

(** C2, as amended: for every transaction, [calculate_totals] returns and
    leaves the line items, tax, discount and payment as they were;
    afterwards [subtotal] is Python's [sum] of the [total_price] of the
    line items, [total_amount] is [subtotal + tax_amount - discount_amount]
    and [change_amount] is [max(0, payment_amount - total_amount)], every
    [+] and [-] being that of the decimal context (the exact result rounded
    to 28 significant digits).  The subtotal is recomputed from the lines
    alone: whatever [subtotal], [total_amount] and [change_amount] held
    before, the result is the same.  When the amounts add up to at most 28
    digits, the subtotal is the exact sum of the line totals, and the total
    and the change are the exact ones. *)
Theorem transaction_totals (x : Transaction.t) :
  exists x' : Transaction.t,
    Transaction.calculate_totals x = (Ok tt, x') /\
    Transaction.transaction_items x' = Transaction.transaction_items x /\
    Transaction.tax_amount x' = Transaction.tax_amount x /\
    Transaction.discount_amount x' = Transaction.discount_amount x /\
    Transaction.payment_amount x' = Transaction.payment_amount x /\
    Transaction.subtotal x' =
      py_sum (map TransactionItem.total_price (Transaction.transaction_items x')) 0 /\
    Transaction.total_amount x' =
      Decimal_sub
        (Decimal_add (Transaction.subtotal x') (Transaction.tax_amount x'))
        (Transaction.discount_amount x') /\
    Transaction.change_amount x' =
      Z.max 0 (Decimal_sub (Transaction.payment_amount x')
                 (Transaction.total_amount x')) /\
    (forall stale_subtotal stale_total stale_change : Decimal,
       Transaction.calculate_totals
         (Transaction.set_subtotal stale_subtotal
           (Transaction.set_total_amount stale_total
             (Transaction.set_change_amount stale_change x))) = (Ok tt, x')) /\
    (within_precision x ->
     Transaction.subtotal x' =
       sum_of_line_totals (Transaction.transaction_items x') /\
     Transaction.total_amount x' =
       Transaction.subtotal x' + Transaction.tax_amount x'
       - Transaction.discount_amount x' /\
     Transaction.change_amount x' =
       Z.max 0 (Transaction.payment_amount x' - Transaction.total_amount x')).
Proof.
  exists (totalled x).
  split; [apply transaction_calculate_totals_run |].
  split; [reflexivity |]. split; [reflexivity |]. split; [reflexivity |].
  split; [reflexivity |]. split; [reflexivity |]. split; [reflexivity |].
  split; [reflexivity |]. split; [reflexivity |].
  intro Hfit.
  destruct (totalled_exact x Hfit) as (Hs & Ht & Hc).
  rewrite Hc, Ht, Hs. repeat split.
Qed.

Lemma transaction_totals_witness :
  exists x' : Transaction.t,
    Transaction.calculate_totals paid_transaction = (Ok tt, x') /\
    Transaction.subtotal x' = 15000 /\
    Transaction.total_amount x' = 16000 /\
    Transaction.change_amount x' = 1000.
Proof.
  destruct (transaction_totals paid_transaction)
    as (x' & Hrun & Hitems & Htax & Hdisc & Hpay & _ & _ & _ & _ & Hexact).
  exists x'. split; [exact Hrun |].
  destruct Hexact as (Hs & Ht & Hc); [reflexivity |].
  rewrite Hc, Ht, Hs, Hitems, Htax, Hdisc, Hpay.
  repeat split.
Defined.

(** C10, the claim refuted: no line, a tax of
    100000000000000000000000000.06 and a discount of
    100000000000000000000000000.07.  The discount exceeds the subtotal plus
    the tax, yet the total that [calculate_totals] leaves is +0.03: the
    subtotal plus the tax is rounded to 100000000000000000000000000.10
    before the discount is subtracted. *)
Lemma total_not_negative_after_rounding :
  Transaction.discount_amount large_discount_transaction >
    sum_of_line_totals (Transaction.transaction_items large_discount_transaction)
    + Transaction.tax_amount large_discount_transaction /\
  Transaction.subtotal
    (state_after (Transaction.calculate_totals large_discount_transaction)) = 0 /\
  Transaction.total_amount
    (state_after (Transaction.calculate_totals large_discount_transaction)) = 3.
Proof. repeat split. Qed.

(** C10, as amended: for every transaction, the [change_amount] that
    [calculate_totals] leaves is never negative, and is zero whenever the
    payment is below the total; the total itself is not clamped: it is
    negative whenever the discount exceeds the recomputed subtotal plus the
    tax as the decimal context adds them (rounded to 28 significant
    digits), hence, when the amounts add up to at most 28 digits, whenever
    it exceeds their exact sum.  An empty transaction has a recomputed
    subtotal of 0, and with a discount [d] of at most 28 digits and no tax
    its total is [-d]. *)
Theorem change_clamped_total_unbounded (x : Transaction.t) :
  exists x' : Transaction.t,
    Transaction.calculate_totals x = (Ok tt, x') /\
    0 <= Transaction.change_amount x' /\
    (Transaction.payment_amount x < Transaction.total_amount x' ->
     Transaction.change_amount x' = 0) /\
    (Transaction.discount_amount x >
       Decimal_add (Transaction.subtotal x') (Transaction.tax_amount x) ->
     Transaction.total_amount x' < 0) /\
    (within_precision x ->
     Transaction.discount_amount x >
       Transaction.subtotal x' + Transaction.tax_amount x ->
     Transaction.total_amount x' < 0) /\
    (Transaction.transaction_items x = [] -> Transaction.subtotal x' = 0) /\
    forall d : Decimal,
      0 < d < 10 ^ context_prec ->
      Transaction.total_amount
        (state_after
           (Transaction.calculate_totals
              (Transaction.set_discount_amount d empty_transaction))) = - d.
Proof.
  exists (totalled x).
  split; [apply transaction_calculate_totals_run |].
  split; [unfold totalled; cbn [Transaction.change_amount]; lia |].
  split.
  { unfold totalled;
      cbn [Transaction.change_amount Transaction.total_amount].
    intro Hlt. unfold Decimal_sub at 1.
    match goal with
    | |- Z.max 0 (Decimal_round ?v) = 0 =>
        destruct (Decimal_round_sign v) as (_ & Hneg & _);
        assert (Hv : v < 0) by lia; specialize (Hneg Hv); lia
    end. }
  split.
  { unfold totalled; cbn [Transaction.subtotal Transaction.total_amount].
    intro Hgt. unfold Decimal_sub.
    match goal with
    | |- Decimal_round ?v < 0 =>
        destruct (Decimal_round_sign v) as (_ & Hneg & _); apply Hneg; lia
    end. }
  split.
  { intros Hfit Hgt.
    destruct (totalled_exact x Hfit) as (Hs & Ht & _).
    rewrite Ht. rewrite Hs in Hgt. lia. }
  split.
  { intro Hempty. unfold totalled; cbn [Transaction.subtotal].
    rewrite Hempty. reflexivity. }
  intros d Hd.
  rewrite transaction_calculate_totals_run.
  unfold state_after, totalled, py_sum, empty_transaction,
    Transaction.set_discount_amount.
  cbn [snd map fold_left Transaction.total_amount Transaction.tax_amount
       Transaction.discount_amount Transaction.transaction_items].
  unfold Decimal_sub, Decimal_add.
  change (Decimal_round (0 + 0)) with 0.
  apply Decimal_round_exact. lia.
Qed.

Lemma change_clamped_total_unbounded_witness :
  exists x' : Transaction.t,
    Transaction.calculate_totals
      (Transaction.set_discount_amount 500 empty_transaction) = (Ok tt, x') /\
    Transaction.subtotal x' = 0 /\
    Transaction.total_amount x' < 0 /\
    0 <= Transaction.change_amount x'.
Proof.
  destruct (change_clamped_total_unbounded
              (Transaction.set_discount_amount 500 empty_transaction))
    as (x' & Hrun & Hchange & _ & _ & Hneg & Hsub & _).
  exists x'. split; [exact Hrun |].
  pose proof (Hsub eq_refl) as Hzero.
  split; [exact Hzero |].
  split; [| exact Hchange].
  apply Hneg; [reflexivity |]. rewrite Hzero. reflexivity.
Defined.

(** * Price snapshots *)

(** C9, the claim refuted: a line of 2 Ecer calculated while the retail
    selling price is 11000 holds [unit_price = 11000]; after the item's
    price is raised to 12000, calling [calculate_totals] on that line again
    replaces its [unit_price] by 12000 and its [total_price] by 24000. *)
Lemma unit_price_reread_on_recalculation :
  TransactionItem.unit_price sold_line = 11000 /\
  TransactionItem.total_price sold_line = 22000 /\
  Item.retail_selling_price repriced_item = 12000 /\
  TransactionItem.calculate_totals (sold_line, repriced_item) =
    (Ok tt,
     (TransactionItem.mk None 1 1 2 ECER 12000 24000 2, repriced_item)).
Proof. repeat split. Qed.

(** C9, as amended: a line holds its [unit_price] by value.  Assigning a
    new selling price to the item leaves the line as it was, and so does
    [Transaction.calculate_totals] with every line of the transaction.  The
    one method that assigns [unit_price] is
    [TransactionItem.calculate_totals]: each call reads the price the item
    has at that moment and stores the decimal product of the quantity and
    that price as [total_price], so a call repeated on an existing line
    keeps its [unit_price] and [total_price] when the item's price for the
    line's unit type is what it was, and replaces them by the new price
    otherwise. *)
Theorem unit_price_stored_by_value
    (l : TransactionItem.t) (i i' : Item.t) (x : Transaction.t) (p : Decimal) :
  state_after (on_snd (modify (Item.set_retail_selling_price p)) (l, i)) =
    (l, Item.set_retail_selling_price p i) /\
  state_after (on_snd (modify (Item.set_wholesale_selling_price p)) (l, i)) =
    (l, Item.set_wholesale_selling_price p i) /\
  Transaction.transaction_items (state_after (Transaction.calculate_totals x)) =
    Transaction.transaction_items x /\
  exists sold resold : TransactionItem.t,
    TransactionItem.calculate_totals (l, i) = (Ok tt, (sold, i)) /\
    TransactionItem.calculate_totals (sold, i') = (Ok tt, (resold, i')) /\
    Item.get_price_by_unit (TransactionItem.unit_type l) i' =
      (Ok (TransactionItem.unit_price resold), i') /\
    TransactionItem.total_price resold =
      Decimal_mul_int (TransactionItem.quantity l)
        (TransactionItem.unit_price resold) /\
    (outcome (Item.get_price_by_unit (TransactionItem.unit_type l) i') =
     outcome (Item.get_price_by_unit (TransactionItem.unit_type l) i) ->
     TransactionItem.unit_price resold = TransactionItem.unit_price sold /\
     TransactionItem.total_price resold = TransactionItem.total_price sold).
Proof.
  split; [reflexivity |]. split; [reflexivity |]. split; [reflexivity |].
  exists (calculated l i), (calculated (calculated l i) i').
  rewrite !line_calculate_totals_run, !get_price_by_unit_run.
  unfold outcome, calculated;
    cbn [fst TransactionItem.unit_type TransactionItem.quantity
         TransactionItem.unit_price TransactionItem.total_price].
  split; [reflexivity |]. split; [reflexivity |].
  split; [reflexivity |]. split; [reflexivity |].
  intro Hsame. injection Hsame as Hsame.
  rewrite Hsame. split; reflexivity.
Qed.

(** * The Stock Ledger *)

(** C1: for every store, item and movement, when the previous stock plus
    the quantity change is negative, [apply_movement] fails with
    [NegativeStockError] and leaves the store as it was: the item's stock
    and the ledger entries are unchanged.  Otherwise it succeeds, writes
    the new stock to the item and appends one entry, with
    [new_stock = previous_stock + quantity_change] and [new_stock >= 0],
    and touches no other item.  So a store in which no stock is negative
    stays so after every call. *)
Theorem apply_movement_never_negative
    (s : StockLedger.t) (item : Z) (movement_type : MovementType)
    (quantity_change : Z) (reason : string) (actor : Z)
    (related_line_item : option Z) (now : Z) :
  (Item.stock_quantity (StockLedger.items s item) + quantity_change < 0 ->
   StockLedger.apply_movement item movement_type quantity_change reason
     actor related_line_item now s = (Fail NegativeStockError, s)) /\
  (0 <= Item.stock_quantity (StockLedger.items s item) + quantity_change ->
   exists (e : StockMovement.t) (s' : StockLedger.t),
     StockLedger.apply_movement item movement_type quantity_change reason
       actor related_line_item now s = (Ok e, s') /\
     StockMovement.previous_stock e =
       Item.stock_quantity (StockLedger.items s item) /\
     StockMovement.quantity_change e = quantity_change /\
     StockMovement.new_stock e =
       StockMovement.previous_stock e + StockMovement.quantity_change e /\
     0 <= StockMovement.new_stock e /\
     Item.stock_quantity (StockLedger.items s' item) = StockMovement.new_stock e /\
     (forall k, k <> item -> StockLedger.items s' k = StockLedger.items s k) /\
     StockLedger.entries s' = StockLedger.entries s ++ [e]) /\
  (StockLedger.stock_nonneg s ->
   StockLedger.stock_nonneg
     (state_after
        (StockLedger.apply_movement item movement_type quantity_change reason
           actor related_line_item now s))).
Proof.
  unfold StockLedger.apply_movement, bind, gets, raise, modify, ret,
    state_after.
  destruct (Z.ltb_spec
              (Item.stock_quantity (StockLedger.items s item) + quantity_change)
              0) as [Hneg | Hok].
  - split; [reflexivity |]. split; [lia |].
    intro Hs. exact Hs.
  - split; [lia |]. split.
    + intros _. eexists. eexists. split; [reflexivity |].
      cbn [StockMovement.previous_stock StockMovement.quantity_change
           StockMovement.new_stock StockLedger.items StockLedger.entries].
      unfold StockLedger.update_item.
      rewrite Z.eqb_refl.
      repeat split; try assumption.
      intros k Hk. apply Z.eqb_neq in Hk. rewrite Hk. reflexivity.
    + intros Hs k. cbn [snd StockLedger.items].
      unfold StockLedger.update_item.
      destruct (k =? item); [exact Hok | apply Hs].
Qed.

Lemma apply_movement_never_negative_witness :
  StockLedger.apply_movement 1 Sale (-15) EmptyString 7 None 0 sample_store =
    (Fail NegativeStockError, sample_store) /\
  (exists (e : StockMovement.t) (s' : StockLedger.t),
     StockLedger.apply_movement 1 Sale (-5) EmptyString 7 None 0 sample_store =
       (Ok e, s') /\
     StockMovement.new_stock e = 5 /\
     Item.stock_quantity (StockLedger.items s' 1) = 5 /\
     StockLedger.entries s' = [e]).
Proof.
  split.
  - apply (apply_movement_never_negative
             sample_store 1 Sale (-15) EmptyString 7 None 0).
    reflexivity.
  - destruct (proj1 (proj2 (apply_movement_never_negative
                sample_store 1 Sale (-5) EmptyString 7 None 0)))
      as (e & s' & Hrun & Hprev & Hchange & Hnew & _ & Hstock & _ & Hentries).
    + discriminate.
    + exists e, s'. split; [exact Hrun |].
      rewrite Hstock, Hnew, Hprev, Hchange.
      repeat split. exact Hentries.
Defined.

(** * The Transaction Aggregator *)

Section AggregatorSteps.

(** The status of a transaction is not an amount: the setters of the
    totals and of the lines keep it. *)
Lemma totalled_status (x : Transaction.t) :
  Transaction.status (totalled x) = Transaction.status x.
Proof. reflexivity. Qed.

(** The total that [finalize] recomputes from the lines, the tax and the
    discount. *)
Lemma finalize_run (s : Aggregator.t) (tax discount payment : Decimal) :
  Aggregator.status s = PENDING ->
  Aggregator.lines s <> [] ->
  Aggregator.finalize tax discount payment s =
  if payment <?
     Decimal_sub
       (Decimal_add
          (py_sum (map TransactionItem.total_price (Aggregator.lines s)) 0) tax)
       discount
  then (Fail InvalidPayment, s)
  else (Ok tt,
        Aggregator.mk
          (totalled
             (Transaction.set_payment_amount payment
                (Transaction.set_discount_amount discount
                   (Transaction.set_tax_amount tax (Aggregator.txn s)))))
          true (Aggregator.stock s)).
Proof.
  intros Hst Hls.
  unfold Aggregator.finalize, bind, gets, raise, modify.
  rewrite Hst. cbn [TransactionStatus_eqb negb orb].
  destruct (Aggregator.lines s) as [| l ls] eqn:Els; [congruence |].
  cbn [List.length Nat.eqb].
  rewrite transaction_calculate_totals_run. unfold state_after. cbn [snd].
  unfold totalled at 1.
  cbn [Transaction.set_payment_amount Transaction.set_discount_amount
       Transaction.set_tax_amount Transaction.transaction_items
       Transaction.tax_amount Transaction.discount_amount
       Transaction.total_amount].
  unfold Aggregator.lines in Els. rewrite Els.
  destruct (payment <? _); reflexivity.
Qed.

Lemma finalize_keeps_status_and_stock
    (s : Aggregator.t) (tax discount payment : Decimal) :
  Aggregator.status (state_after (Aggregator.finalize tax discount payment s)) =
    Aggregator.status s /\
  Aggregator.stock (state_after (Aggregator.finalize tax discount payment s)) =
    Aggregator.stock s.
Proof.
  unfold Aggregator.finalize, bind, gets, raise, modify, state_after.
  destruct (negb (TransactionStatus_eqb (Aggregator.status s) PENDING)
            || (List.length (Aggregator.lines s) =? 0)%nat);
    [split; reflexivity |].
  destruct (payment <? _); split; reflexivity.
Qed.

(** A request on a transaction that is [Completed] or [Cancelled] is
    rejected and changes nothing. *)
Lemma terminal_rejects (o : Aggregator.Op) (s : Aggregator.t) :
  Aggregator.terminal (Aggregator.status s) ->
  Aggregator.run o s = (Fail InvalidStateTransition, s).
Proof.
  intros Hterm.
  destruct o; unfold Aggregator.run, Aggregator.add_line, Aggregator.finalize,
    Aggregator.commit, Aggregator.cancel, bind, gets, raise;
    destruct Hterm as [-> | ->]; reflexivity.
Qed.

(** One request moves the status along a transition or leaves it. *)
Lemma run_status (o : Aggregator.Op) (s : Aggregator.t) :
  Aggregator.status (state_after (Aggregator.run o s)) = Aggregator.status s \/
  Aggregator.transition (Aggregator.status s)
    (Aggregator.status (state_after (Aggregator.run o s))).
Proof.
  destruct (Aggregator.status s) eqn:Hst.
  2, 3: left; rewrite terminal_rejects;
        [exact Hst | unfold Aggregator.terminal; rewrite Hst; auto].
  destruct o as [item q u | tax d p | now |]; unfold Aggregator.run.
  - left. rewrite <- Hst.
    unfold Aggregator.add_line, Aggregator.on_snapshot, bind, gets, raise,
      modify, state_after.
    destruct (negb _); [reflexivity |].
    destruct (fst _); reflexivity.
  - left. rewrite <- Hst. apply finalize_keeps_status_and_stock.
  - unfold Aggregator.commit, zoom, bind, gets, raise, modify, state_after.
    rewrite Hst. cbn [TransactionStatus_eqb negb orb].
    destruct (Aggregator.finalized s); cbn [negb].
    + destruct (StockLedger.debit_lines _ _ _ _) as [[[] | e] l].
      * right. constructor.
      * left. exact Hst.
    + left. exact Hst.
  - right. unfold Aggregator.cancel, bind, gets, modify, state_after.
    rewrite Hst. constructor.
Qed.

End AggregatorSteps.

(** C5: for every pending transaction with at least one line, [finalize]
    fails with [InvalidPayment] whenever the payment is below the total
    (the sum of the line totals plus the tax minus the discount, as
    [Transaction.calculate_totals] recomputes it in the decimal context; the
    exact sum plus the tax minus the discount when the amounts add up to at
    most 28 digits), and leaves the whole state as it was: the transaction
    is still [Pending] and no stock was debited.  In every case, success
    included, [finalize] changes neither the status nor the stock
    ledger. *)
Theorem finalize_invalid_payment
    (s : Aggregator.t) (tax_amount discount_amount payment_amount : Decimal) :
  (Aggregator.status s = PENDING ->
   Aggregator.lines s <> [] ->
   payment_amount <
     Decimal_sub
       (Decimal_add
          (py_sum (map TransactionItem.total_price (Aggregator.lines s)) 0)
          tax_amount)
       discount_amount ->
   Aggregator.finalize tax_amount discount_amount payment_amount s =
     (Fail InvalidPayment, s)) /\
  (Aggregator.status s = PENDING ->
   Aggregator.lines s <> [] ->
   sum_of_magnitudes (Aggregator.lines s)
   + Z.abs tax_amount + Z.abs discount_amount < 10 ^ context_prec ->
   payment_amount <
     sum_of_line_totals (Aggregator.lines s) + tax_amount - discount_amount ->
   Aggregator.finalize tax_amount discount_amount payment_amount s =
     (Fail InvalidPayment, s)) /\
  Aggregator.status
    (state_after (Aggregator.finalize tax_amount discount_amount payment_amount s)) =
    Aggregator.status s /\
  Aggregator.stock
    (state_after (Aggregator.finalize tax_amount discount_amount payment_amount s)) =
    Aggregator.stock s.
Proof.
  assert (Hgeneral :
    Aggregator.status s = PENDING ->
    Aggregator.lines s <> [] ->
    payment_amount <
      Decimal_sub
        (Decimal_add
           (py_sum (map TransactionItem.total_price (Aggregator.lines s)) 0)
           tax_amount)
        discount_amount ->
    Aggregator.finalize tax_amount discount_amount payment_amount s =
      (Fail InvalidPayment, s)).
  { intros Hst Hls Hpay.
    rewrite finalize_run by assumption.
    apply Z.ltb_lt in Hpay. rewrite Hpay. reflexivity. }
  split; [exact Hgeneral |].
  split; [| apply finalize_keeps_status_and_stock].
  intros Hst Hls Hfit Hpay.
  apply Hgeneral; [assumption | assumption |].
  pose proof (sum_of_magnitudes_nonneg (Aggregator.lines s)) as Hm.
  pose proof (sum_of_line_totals_bound (Aggregator.lines s)) as Hb.
  rewrite py_sum_line_totals by lia.
  unfold Decimal_add, Decimal_sub.
  rewrite (Decimal_round_exact
             (sum_of_line_totals (Aggregator.lines s) + tax_amount)) by lia.
  rewrite Decimal_round_exact by lia.
  exact Hpay.
Qed.

Lemma finalize_invalid_payment_witness :
  Aggregator.finalize 1500 500 10000 pending_sale =
    (Fail InvalidPayment, pending_sale) /\
  Aggregator.status pending_sale = PENDING /\
  StockLedger.entries (Aggregator.stock pending_sale) = [].
Proof.
  split.
  - apply (proj1 (proj2 (finalize_invalid_payment pending_sale 1500 500 10000))).
    + reflexivity.
    + discriminate.
    + reflexivity.
    + reflexivity.
  - split; reflexivity.
Defined.

(** C6: the status is a state machine whose only transitions are
    [Pending -> Completed] and [Pending -> Cancelled], and both occur.
    Every request ([add_line], [finalize], [commit], [cancel]) either keeps
    the status or follows one of the two; on a [Completed] or [Cancelled]
    transaction every request is rejected with [InvalidStateTransition] and
    changes nothing, so no sequence of requests leaves a terminal state.
    In particular [cancel()] on a [Completed] transaction is rejected and
    the stock ledger, with the debits of that sale, is as it was. *)
Theorem status_state_machine :
  (forall (o : Aggregator.Op) (s : Aggregator.t),
     Aggregator.status (state_after (Aggregator.run o s)) = Aggregator.status s \/
     Aggregator.transition (Aggregator.status s)
       (Aggregator.status (state_after (Aggregator.run o s)))) /\
  (forall (o : Aggregator.Op) (s : Aggregator.t),
     Aggregator.terminal (Aggregator.status s) ->
     Aggregator.run o s = (Fail InvalidStateTransition, s)) /\
  (forall (os : list Aggregator.Op) (s : Aggregator.t),
     Aggregator.terminal (Aggregator.status s) ->
     Aggregator.run_all os s = s) /\
  (forall s : Aggregator.t,
     Aggregator.status s = COMPLETED ->
     Aggregator.cancel s = (Fail InvalidStateTransition, s)) /\
  (Aggregator.status finalized_sale = PENDING /\
   Aggregator.status (state_after (Aggregator.commit 1700000000 finalized_sale)) =
     COMPLETED) /\
  (Aggregator.status pending_sale = PENDING /\
   Aggregator.status (state_after (Aggregator.cancel pending_sale)) = CANCELLED).
Proof.
  split; [exact run_status |].
  split; [exact terminal_rejects |].
  split.
  - intros os. induction os as [| o os IH]; intros s Hterm; simpl.
    + reflexivity.
    + rewrite terminal_rejects by exact Hterm.
      unfold state_after; simpl. apply IH. exact Hterm.
  - split.
    + intros s Hst.
      apply (terminal_rejects Aggregator.Cancel).
      left. exact Hst.
    + split; split; reflexivity.
Qed.

Lemma status_state_machine_witness :
  Aggregator.status completed_sale = COMPLETED /\
  Aggregator.cancel completed_sale =
    (Fail InvalidStateTransition, completed_sale) /\
  Aggregator.run_all
    [Aggregator.Cancel; Aggregator.AddLine 1 1 ECER; Aggregator.Commit 0]
    completed_sale = completed_sale.
Proof.
  destruct status_state_machine as (_ & _ & Hall & Hcancel & _).
  split; [reflexivity |].
  split.
  - apply Hcancel. reflexivity.
  - apply Hall. left. reflexivity.
Defined.

(** * Further properties of the stock check *)

(** X1: asking whether [q] Grosir packs can be fulfilled is the same check
    as asking for [q * quantity_per_wholesale] Ecer units. *)
Theorem can_fulfill_order_packs_as_units (i : Item.t) (q : Z) :
  Item.can_fulfill_order q GROSIR i =
  Item.can_fulfill_order (q * Item.quantity_per_wholesale i) ECER i.
Proof. rewrite !can_fulfill_order_run. reflexivity. Qed.

(** X2: when an order of [q] can be fulfilled, so can every order of a
    smaller quantity in the same unit type, provided
    [quantity_per_wholesale] is not negative. *)
Theorem can_fulfill_order_smaller_quantity
    (i : Item.t) (q q' : Z) (u : UnitType)
    (Hw : 0 <= Item.quantity_per_wholesale i)
    (Hle : q' <= q)
    (Hok : Item.can_fulfill_order q u i = (Ok true, i)) :
  Item.can_fulfill_order q' u i = (Ok true, i).
Proof.
  rewrite can_fulfill_order_run in *.
  injection Hok as Hok. rewrite Z.geb_le in Hok.
  f_equal. f_equal. rewrite Z.geb_le.
  destruct u; nia.
Qed.

Lemma can_fulfill_order_smaller_quantity_witness :
  Item.can_fulfill_order 2 GROSIR sample_item = (Ok true, sample_item) /\
  Item.can_fulfill_order 1 GROSIR sample_item = (Ok true, sample_item).
Proof.
  split; [reflexivity |].
  apply (can_fulfill_order_smaller_quantity sample_item 2 1 GROSIR).
  - discriminate.
  - discriminate.
  - reflexivity.
Defined.

(** X3: the stock check rejects no quantity that is zero or negative: on
    an item that meets its column constraints ([quantity_per_wholesale > 0],
    [stock_quantity >= 0]) it answers [True] for every [q <= 0], in both
    unit types, empty stock included. *)
Theorem can_fulfill_order_accepts_non_positive
    (i : Item.t) (q : Z) (u : UnitType)
    (Hv : Item.valid i) (Hq : q <= 0) :
  Item.can_fulfill_order q u i = (Ok true, i).
Proof.
  destruct Hv as (Hw & Hs & _).
  rewrite can_fulfill_order_run.
  f_equal. f_equal. rewrite Z.geb_le.
  destruct u; nia.
Qed.

Lemma can_fulfill_order_accepts_non_positive_witness :
  Item.can_fulfill_order (-3) GROSIR (Item.set_stock_quantity 0 sample_item) =
    (Ok true, Item.set_stock_quantity 0 sample_item).
Proof.
  apply (can_fulfill_order_accepts_non_positive
           (Item.set_stock_quantity 0 sample_item) (-3) GROSIR).
  - split; [reflexivity |]. split; discriminate.
  - discriminate.
Defined.

(** * Further properties of the unit conversion *)

(** X4: on an item with [quantity_per_wholesale > 0] the conversion to the
    base unit is strictly increasing in the quantity, in both unit types:
    different quantities never convert to the same stock amount. *)
Theorem convert_to_ecer_quantity_increasing
    (i : Item.t) (q q' : Z) (u : UnitType)
    (Hw : 0 < Item.quantity_per_wholesale i) (Hlt : q < q') :
  exists e e' : Z,
    Item.convert_to_ecer_quantity q u i = (Ok e, i) /\
    Item.convert_to_ecer_quantity q' u i = (Ok e', i) /\
    e < e'.
Proof.
  eexists. eexists.
  split; [apply convert_to_ecer_quantity_run |].
  split; [apply convert_to_ecer_quantity_run |].
  destruct u; nia.
Qed.

Lemma convert_to_ecer_quantity_increasing_witness :
  exists e e' : Z,
    Item.convert_to_ecer_quantity 1 GROSIR sample_item = (Ok e, sample_item) /\
    Item.convert_to_ecer_quantity 3 GROSIR sample_item = (Ok e', sample_item) /\
    e < e'.
Proof.
  apply (convert_to_ecer_quantity_increasing sample_item 1 3 GROSIR);
    reflexivity.
Defined.

(** X5: the conversion is additive: an order of [a + b] converts to the
    sum of what [a] and [b] convert to, so splitting an order over several
    lines of the same unit type takes the same stock. *)
Theorem convert_to_ecer_quantity_additive
    (i : Item.t) (a b : Z) (u : UnitType) :
  exists ea eb : Z,
    Item.convert_to_ecer_quantity a u i = (Ok ea, i) /\
    Item.convert_to_ecer_quantity b u i = (Ok eb, i) /\
    Item.convert_to_ecer_quantity (a + b) u i = (Ok (ea + eb), i).
Proof.
  eexists. eexists.
  split; [apply convert_to_ecer_quantity_run |].
  split; [apply convert_to_ecer_quantity_run |].
  rewrite convert_to_ecer_quantity_run.
  destruct u; f_equal; f_equal; lia.
Qed.

(** * Further properties of the line calculation *)

(** X6: [TransactionItem.calculate_totals] is idempotent and overwrites
    what the line held: a second call with the same item changes nothing,
    and the result does not depend on the [unit_price], [total_price] and
    [ecer_quantity] the line had before. *)
Theorem line_calculate_totals_idempotent (l : TransactionItem.t) (i : Item.t) :
  exists l' : TransactionItem.t,
    TransactionItem.calculate_totals (l, i) = (Ok tt, (l', i)) /\
    TransactionItem.calculate_totals (l', i) = (Ok tt, (l', i)) /\
    forall stale_price stale_total : Decimal, forall stale_ecer : Z,
      TransactionItem.calculate_totals
        (TransactionItem.set_unit_price stale_price
           (TransactionItem.set_total_price stale_total
              (TransactionItem.set_ecer_quantity stale_ecer l)), i) =
      (Ok tt, (l', i)).
Proof.
  exists (calculated l i).
  rewrite !line_calculate_totals_run.
  split; [reflexivity |]. split; [reflexivity |].
  intros stale_price stale_total stale_ecer.
  rewrite line_calculate_totals_run. reflexivity.
Qed.

(** X7: [TransactionItem.calculate_totals] keeps the line's [id],
    [transaction_id], [item_id], [quantity] and [unit_type], and reads
    nothing of the item but its two selling prices and
    [quantity_per_wholesale]: the line comes out the same for an item with
    any other id, barcode, name, category, cost prices, stock, minimum
    stock and activity flag.  In particular the item's id is not compared
    with the line's [item_id], and an inactive item is priced like an
    active one. *)
Theorem line_calculate_totals_reads_prices_only
    (l : TransactionItem.t) (i : Item.t)
    (id' : option Z) (barcode' name' : string) (category' : Z)
    (wholesale_cost' retail_cost' : Decimal) (stock' minimum' : Z)
    (active' : bool) :
  exists l' : TransactionItem.t,
    TransactionItem.calculate_totals (l, i) = (Ok tt, (l', i)) /\
    TransactionItem.id l' = TransactionItem.id l /\
    TransactionItem.transaction_id l' = TransactionItem.transaction_id l /\
    TransactionItem.item_id l' = TransactionItem.item_id l /\
    TransactionItem.quantity l' = TransactionItem.quantity l /\
    TransactionItem.unit_type l' = TransactionItem.unit_type l /\
    fst (state_after
           (TransactionItem.calculate_totals
              (l, Item.mk id' barcode' name' category'
                    wholesale_cost' (Item.wholesale_selling_price i)
                    (Item.quantity_per_wholesale i)
                    retail_cost' (Item.retail_selling_price i)
                    stock' minimum' active'))) = l'.
Proof.
  exists (calculated l i).
  rewrite !line_calculate_totals_run.
  repeat split.
Qed.

(** * Further properties of the transaction totals *)

Section LineSums.

Lemma sum_of_line_totals_app (a b : list TransactionItem.t) :
  sum_of_line_totals (a ++ b) = sum_of_line_totals a + sum_of_line_totals b.
Proof.
  induction a as [| l a IH]; simpl; [reflexivity | rewrite IH; lia].
Qed.

Lemma sum_of_magnitudes_app (a b : list TransactionItem.t) :
  sum_of_magnitudes (a ++ b) = sum_of_magnitudes a + sum_of_magnitudes b.
Proof.
  induction a as [| l a IH]; simpl; [reflexivity | rewrite IH; lia].
Qed.

Lemma sum_of_line_totals_perm (a b : list TransactionItem.t) :
  Permutation a b -> sum_of_line_totals a = sum_of_line_totals b.
Proof.
  induction 1 as [| l a b _ IH | l l' a | a b c _ IHab _ IHbc]; simpl.
  - reflexivity.
  - rewrite IH. reflexivity.
  - lia.
  - rewrite IHab. exact IHbc.
Qed.

Lemma sum_of_magnitudes_perm (a b : list TransactionItem.t) :
  Permutation a b -> sum_of_magnitudes a = sum_of_magnitudes b.
Proof.
  induction 1 as [| l a b _ IH | l l' a | a b c _ IHab _ IHbc]; simpl.
  - reflexivity.
  - rewrite IH. reflexivity.
  - lia.
  - rewrite IHab. exact IHbc.
Qed.

Lemma sum_of_line_totals_nonneg (ls : list TransactionItem.t) :
  Forall (fun l => 0 <= TransactionItem.total_price l) ls ->
  0 <= sum_of_line_totals ls.
Proof.
  induction 1 as [| l ls Hl _ IH]; simpl; lia.
Qed.

(** Lines calculated from products of at most 28 digits hold the exact
    products. *)
Lemma calculated_lines_exact (pairs : list (TransactionItem.t * Item.t)) :
  sum_of_product_magnitudes pairs < 10 ^ context_prec ->
  sum_of_line_totals (calculate_lines pairs) = sum_of_quantity_times_price pairs /\
  sum_of_magnitudes (calculate_lines pairs) = sum_of_product_magnitudes pairs.
Proof.
  unfold calculate_lines.
  induction pairs as [| [l i] pairs IH];
    cbn [map sum_of_line_totals sum_of_magnitudes sum_of_quantity_times_price
         sum_of_product_magnitudes]; intro Hfit.
  - split; reflexivity.
  - assert (Hrest : 0 <= sum_of_product_magnitudes pairs).
    { clear. induction pairs as [| [l i] pairs IH];
        cbn [sum_of_product_magnitudes]; lia. }
    destruct IH as [IH1 IH2]; [lia |].
    rewrite IH1, IH2, line_calculate_totals_run.
    unfold state_after, calculated; cbn [fst snd TransactionItem.total_price].
    fold (price_of i (TransactionItem.unit_type l)).
    unfold Decimal_mul_int. rewrite Decimal_round_exact by lia.
    split; reflexivity.
Qed.

End LineSums.

(** X8: [Transaction.calculate_totals] is idempotent, and assigns only the
    three totals: a second call changes nothing, and the status, the
    identifiers, the notes, the tax, the discount, the payment and the
    lines are what they were. *)
Theorem transaction_calculate_totals_idempotent (x : Transaction.t) :
  exists x' : Transaction.t,
    Transaction.calculate_totals x = (Ok tt, x') /\
    Transaction.calculate_totals x' = (Ok tt, x') /\
    Transaction.set_subtotal (Transaction.subtotal x)
      (Transaction.set_total_amount (Transaction.total_amount x)
         (Transaction.set_change_amount (Transaction.change_amount x) x')) = x.
Proof.
  exists (totalled x).
  rewrite !transaction_calculate_totals_run.
  split; [reflexivity |]. split; [reflexivity |].
  destruct x; reflexivity.
Qed.

(** X9: when the line totals add up, in absolute value, to at most 28
    digits, the totals do not depend on the order of the lines: for every
    rearrangement of the transaction's lines, [calculate_totals] leaves the
    same [subtotal], [total_amount] and [change_amount]. *)
Theorem transaction_totals_order_independent
    (x : Transaction.t) (ls : list TransactionItem.t)
    (Hfit : sum_of_magnitudes (Transaction.transaction_items x) < 10 ^ context_prec)
    (Hperm : Permutation (Transaction.transaction_items x) ls) :
  exists x1 x2 : Transaction.t,
    Transaction.calculate_totals x = (Ok tt, x1) /\
    Transaction.calculate_totals (Transaction.set_transaction_items ls x) =
      (Ok tt, x2) /\
    Transaction.subtotal x2 = Transaction.subtotal x1 /\
    Transaction.total_amount x2 = Transaction.total_amount x1 /\
    Transaction.change_amount x2 = Transaction.change_amount x1.
Proof.
  exists (totalled x), (totalled (Transaction.set_transaction_items ls x)).
  rewrite !transaction_calculate_totals_run.
  split; [reflexivity |]. split; [reflexivity |].
  unfold totalled;
    cbn [Transaction.subtotal Transaction.total_amount Transaction.change_amount
         Transaction.set_transaction_items Transaction.transaction_items
         Transaction.tax_amount Transaction.discount_amount
         Transaction.payment_amount].
  rewrite (py_sum_line_totals ls)
    by (rewrite <- (sum_of_magnitudes_perm _ _ Hperm); exact Hfit).
  rewrite (py_sum_line_totals (Transaction.transaction_items x)) by exact Hfit.
  rewrite (sum_of_line_totals_perm _ _ Hperm).
  repeat split.
Qed.

Lemma transaction_totals_order_independent_witness :
  exists x1 x2 : Transaction.t,
    Transaction.calculate_totals two_line_transaction = (Ok tt, x1) /\
    Transaction.calculate_totals
      (Transaction.set_transaction_items (rev two_lines) two_line_transaction) =
      (Ok tt, x2) /\
    Transaction.subtotal x2 = Transaction.subtotal x1 /\
    Transaction.total_amount x2 = Transaction.total_amount x1 /\
    Transaction.change_amount x2 = Transaction.change_amount x1.
Proof.
  apply (transaction_totals_order_independent two_line_transaction (rev two_lines)).
  - reflexivity.
  - apply perm_swap.
Defined.

(** X10: when the amounts of the transaction with a line appended add up
    to at most 28 digits, recomputing after the line is appended adds that
    line's [total_price] to the subtotal and to the total, whatever the
    stored totals were; when the line's total is not negative, the change
    does not grow. *)
Theorem transaction_totals_append_line
    (x : Transaction.t) (l : TransactionItem.t)
    (Hfit : within_precision
              (Transaction.set_transaction_items
                 (Transaction.transaction_items x ++ [l]) x)) :
  exists x1 x2 : Transaction.t,
    Transaction.calculate_totals x = (Ok tt, x1) /\
    Transaction.calculate_totals
      (Transaction.set_transaction_items
         (Transaction.transaction_items x ++ [l]) x) = (Ok tt, x2) /\
    Transaction.subtotal x2 =
      Transaction.subtotal x1 + TransactionItem.total_price l /\
    Transaction.total_amount x2 =
      Transaction.total_amount x1 + TransactionItem.total_price l /\
    (0 <= TransactionItem.total_price l ->
     Transaction.change_amount x2 <= Transaction.change_amount x1).
Proof.
  exists (totalled x),
    (totalled (Transaction.set_transaction_items
                 (Transaction.transaction_items x ++ [l]) x)).
  rewrite !transaction_calculate_totals_run.
  split; [reflexivity |]. split; [reflexivity |].
  assert (Hfit0 : within_precision x).
  { unfold within_precision in *.
    cbn [Transaction.set_transaction_items Transaction.transaction_items
         Transaction.tax_amount Transaction.discount_amount
         Transaction.payment_amount] in Hfit.
    rewrite sum_of_magnitudes_app in Hfit. cbn [sum_of_magnitudes] in Hfit.
    lia. }
  destruct (totalled_exact x Hfit0) as (-> & -> & ->).
  destruct (totalled_exact _ Hfit) as (-> & -> & ->).
  cbn [Transaction.set_transaction_items Transaction.transaction_items
       Transaction.tax_amount Transaction.discount_amount
       Transaction.payment_amount].
  rewrite sum_of_line_totals_app. cbn [sum_of_line_totals].
  repeat split; lia.
Qed.

Lemma transaction_totals_append_line_witness :
  exists x1 x2 : Transaction.t,
    Transaction.calculate_totals paid_transaction = (Ok tt, x1) /\
    Transaction.calculate_totals
      (Transaction.set_transaction_items
         (Transaction.transaction_items paid_transaction ++ [sold_line])
         paid_transaction) = (Ok tt, x2) /\
    Transaction.subtotal x2 =
      Transaction.subtotal x1 + TransactionItem.total_price sold_line /\
    Transaction.total_amount x2 =
      Transaction.total_amount x1 + TransactionItem.total_price sold_line /\
    (0 <= TransactionItem.total_price sold_line ->
     Transaction.change_amount x2 <= Transaction.change_amount x1).
Proof.
  apply (transaction_totals_append_line paid_transaction sold_line).
  reflexivity.
Defined.

(** X11: when the amounts of the transaction add up to at most 28 digits,
    what the shop keeps is the smaller of the payment and the total: after
    [calculate_totals], [payment_amount - change_amount] equals
    [min(payment_amount, total_amount)].  A payment that covers the total
    gives back exactly the excess; a payment below the total gives back
    nothing and the call still returns. *)
Theorem payment_minus_change (x : Transaction.t) (Hfit : within_precision x) :
  exists x' : Transaction.t,
    Transaction.calculate_totals x = (Ok tt, x') /\
    Transaction.payment_amount x' - Transaction.change_amount x' =
      Z.min (Transaction.payment_amount x') (Transaction.total_amount x').
Proof.
  exists (totalled x).
  split; [apply transaction_calculate_totals_run |].
  destruct (totalled_exact x Hfit) as (_ & -> & ->).
  unfold totalled; cbn [Transaction.payment_amount].
  lia.
Qed.

Lemma payment_minus_change_witness :
  exists x' : Transaction.t,
    Transaction.calculate_totals paid_transaction = (Ok tt, x') /\
    Transaction.payment_amount x' - Transaction.change_amount x' =
      Z.min (Transaction.payment_amount x') (Transaction.total_amount x').
Proof.
  apply (payment_minus_change paid_transaction).
  reflexivity.
Defined.

(** X12: the two [calculate_totals] compose: when every line of the
    transaction was calculated by [TransactionItem.calculate_totals] from
    its item, and the products of quantity and price add up, in absolute
    value, to at most 28 digits, [Transaction.calculate_totals] leaves as
    subtotal the sum, over the lines, of the quantity times the item's
    selling price for the line's unit type. *)
Theorem subtotal_of_calculated_lines
    (x : Transaction.t) (pairs : list (TransactionItem.t * Item.t))
    (Hfit : sum_of_product_magnitudes pairs < 10 ^ context_prec) :
  exists x' : Transaction.t,
    Transaction.calculate_totals
      (Transaction.set_transaction_items (calculate_lines pairs) x) =
      (Ok tt, x') /\
    Transaction.transaction_items x' = calculate_lines pairs /\
    Transaction.subtotal x' = sum_of_quantity_times_price pairs.
Proof.
  exists (totalled (Transaction.set_transaction_items (calculate_lines pairs) x)).
  split; [apply transaction_calculate_totals_run |].
  split; [reflexivity |].
  destruct (calculated_lines_exact pairs Hfit) as [Hsum Hmag].
  unfold totalled;
    cbn [Transaction.subtotal Transaction.set_transaction_items
         Transaction.transaction_items].
  rewrite py_sum_line_totals by (rewrite Hmag; exact Hfit).
  exact Hsum.
Qed.

Lemma subtotal_of_calculated_lines_witness :
  exists x' : Transaction.t,
    Transaction.calculate_totals
      (Transaction.set_transaction_items
         (calculate_lines
            [(new_line 1 GROSIR, sample_item); (new_line 2 ECER, sample_item)])
         empty_transaction) = (Ok tt, x') /\
    Transaction.transaction_items x' =
      calculate_lines
        [(new_line 1 GROSIR, sample_item); (new_line 2 ECER, sample_item)] /\
    Transaction.subtotal x' =
      sum_of_quantity_times_price
        [(new_line 1 GROSIR, sample_item); (new_line 2 ECER, sample_item)].
Proof.
  apply (subtotal_of_calculated_lines empty_transaction
           [(new_line 1 GROSIR, sample_item); (new_line 2 ECER, sample_item)]).
  reflexivity.
Defined.

(** X13: when no line has a negative [total_price], the recomputed
    subtotal is not negative; when moreover the amounts add up to at most
    28 digits, the total is at least the tax minus the discount, so a
    discount that does not exceed the tax leaves a total that is not
    negative. *)
Theorem totals_of_non_negative_lines (x : Transaction.t)
    (Hlines : Forall (fun l => 0 <= TransactionItem.total_price l)
                (Transaction.transaction_items x)) :
  exists x' : Transaction.t,
    Transaction.calculate_totals x = (Ok tt, x') /\
    0 <= Transaction.subtotal x' /\
    (within_precision x ->
     Transaction.tax_amount x - Transaction.discount_amount x <=
       Transaction.total_amount x' /\
     (Transaction.discount_amount x <= Transaction.tax_amount x ->
      0 <= Transaction.total_amount x')).
Proof.
  exists (totalled x).
  split; [apply transaction_calculate_totals_run |].
  split.
  - unfold totalled; cbn [Transaction.subtotal].
    apply py_sum_nonneg; [lia |].
    induction Hlines as [| l ls Hl _ IH]; cbn [map]; constructor; assumption.
  - intro Hfit.
    destruct (totalled_exact x Hfit) as (_ & -> & _).
    pose proof (sum_of_line_totals_nonneg _ Hlines).
    split; [lia | intro; lia].
Qed.

Lemma totals_of_non_negative_lines_witness :
  exists x' : Transaction.t,
    Transaction.calculate_totals two_line_transaction = (Ok tt, x') /\
    0 <= Transaction.subtotal x' /\
    (within_precision two_line_transaction ->
     Transaction.tax_amount two_line_transaction
     - Transaction.discount_amount two_line_transaction <=
       Transaction.total_amount x' /\
     (Transaction.discount_amount two_line_transaction <=
        Transaction.tax_amount two_line_transaction ->
      0 <= Transaction.total_amount x')).
Proof.
  apply (totals_of_non_negative_lines two_line_transaction).
  repeat constructor; discriminate.
Defined.

(** * Identifier generation *)

Ltac nat_div_lia :=
  zify;
  repeat (rewrite Nat2Z.inj_div in * || rewrite Nat2Z.inj_mod in * );
  Z.to_euclidean_division_equations; lia.

Section Identifiers.

Context {Rng : Type} (randbelow : nat -> Rng -> nat * Rng).
Hypothesis randbelow_in_range : Secrets.in_range randbelow.

Lemma get_defined (s : string) :
  forall k : nat, (k < String.length s)%nat -> exists c, String.get k s = Some c.
Proof.
  induction s as [| c s IH]; intros k Hk; simpl in Hk.
  - lia.
  - destruct k as [| k]; simpl.
    + exists c. reflexivity.
    + apply IH. lia.
Qed.

Lemma get_string_forall (p : ascii -> bool) (s : string) :
  string_forall p s = true ->
  forall (k : nat) (c : ascii), String.get k s = Some c -> p c = true.
Proof.
  induction s as [| c0 s IH]; intros Hall k c Hget; simpl in *.
  - discriminate.
  - apply andb_true_iff in Hall as [Hc0 Hs].
    destruct k as [| k].
    + injection Hget as <-. exact Hc0.
    + exact (IH Hs k c Hget).
Qed.

(** [n] choices among a sequence that is not empty: a string of [n]
    characters of the sequence, and no [IndexError]. *)
Lemma join_choices_shape (p : ascii -> bool) (characters : string) :
  (0 < String.length characters)%nat ->
  string_forall p characters = true ->
  forall (n : nat) (r : Rng),
  exists (s : string) (r' : Rng),
    Secrets.join_choices Rng randbelow n characters r = (Some s, r') /\
    String.length s = n /\
    string_forall p s = true.
Proof.
  intros Hlen Hall n.
  induction n as [| n IH]; intro r; simpl.
  - exists EmptyString, r. repeat split.
  - unfold Secrets.choice.
    pose proof (randbelow_in_range (String.length characters) r Hlen) as Hk.
    destruct (randbelow (String.length characters) r) as [k r1].
    simpl in Hk.
    destruct (get_defined characters k Hk) as [c Hc]. rewrite Hc.
    destruct (IH r1) as (s & r2 & -> & Hs & Hp).
    exists (String c s), r2. simpl. rewrite Hs, Hp.
    rewrite (get_string_forall p characters Hall k c Hc).
    repeat split.
Qed.

End Identifiers.

Section Timestamps.

Lemma is_digit_digit (d : nat) : (d < 10)%nat -> is_digit (Datetime.digit d) = true.
Proof.
  intro Hd. unfold is_digit, Datetime.digit.
  rewrite nat_ascii_embedding by lia.
  apply andb_true_iff. split; apply Nat.leb_le; lia.
Qed.

Lemma digit_inj (a b : nat) :
  (a < 10)%nat -> (b < 10)%nat -> Datetime.digit a = Datetime.digit b -> a = b.
Proof.
  intros Ha Hb Heq. apply (f_equal nat_of_ascii) in Heq.
  unfold Datetime.digit in Heq.
  rewrite !nat_ascii_embedding in Heq by lia. lia.
Qed.

Lemma string_cons_inj (c c' : ascii) (s s' : string) :
  String c s = String c' s' -> c = c' /\ s = s'.
Proof. intro H. injection H as Hc Hs. split; assumption. Qed.

Lemma two_digits_inj (n m : nat) (s s' : string) :
  (n < 100)%nat -> (m < 100)%nat ->
  Datetime.two_digits n s = Datetime.two_digits m s' -> n = m /\ s = s'.
Proof.
  intros Hn Hm Heq. unfold Datetime.two_digits in Heq.
  apply string_cons_inj in Heq as [H1 Heq].
  apply string_cons_inj in Heq as [H0 Hs].
  apply digit_inj in H1; [| nat_div_lia | nat_div_lia].
  apply digit_inj in H0; [| nat_div_lia | nat_div_lia].
  split; [nat_div_lia | exact Hs].
Qed.

Lemma four_digits_inj (n m : nat) (s s' : string) :
  Z.of_nat n <= 9999 -> Z.of_nat m <= 9999 ->
  Datetime.four_digits n s = Datetime.four_digits m s' -> n = m /\ s = s'.
Proof.
  intros Hn Hm Heq. unfold Datetime.four_digits in Heq.
  apply string_cons_inj in Heq as [H3 Heq].
  apply string_cons_inj in Heq as [H2 Heq].
  apply string_cons_inj in Heq as [H1 Heq].
  apply string_cons_inj in Heq as [H0 Hs].
  apply digit_inj in H3; [| nat_div_lia | nat_div_lia].
  apply digit_inj in H2; [| nat_div_lia | nat_div_lia].
  apply digit_inj in H1; [| nat_div_lia | nat_div_lia].
  apply digit_inj in H0; [| nat_div_lia | nat_div_lia].
  split; [nat_div_lia | exact Hs].
Qed.

Lemma strftime_inj (d d' : Datetime.t) (s s' : string) :
  Datetime.valid d -> Datetime.valid d' ->
  Datetime.strftime_YmdHMS d s = Datetime.strftime_YmdHMS d' s' ->
  d = d' /\ s = s'.
Proof.
  intros (Hy & Hmo & Hd & Hh & Hmi & Hs) (Hy' & Hmo' & Hd' & Hh' & Hmi' & Hs').
  destruct d as [y mo da h mi se], d' as [y' mo' da' h' mi' se'].
  unfold Datetime.strftime_YmdHMS; simpl in *.
  intro Heq.
  apply four_digits_inj in Heq as [-> Heq]; [| lia | lia].
  apply two_digits_inj in Heq as [-> Heq]; [| lia | lia].
  apply two_digits_inj in Heq as [-> Heq]; [| lia | lia].
  apply two_digits_inj in Heq as [-> Heq]; [| lia | lia].
  apply two_digits_inj in Heq as [-> Heq]; [| lia | lia].
  apply two_digits_inj in Heq as [-> Heq]; [| lia | lia].
  split; [reflexivity | exact Heq].
Qed.

Lemma strftime_digits (d : Datetime.t) (s : string) :
  Datetime.valid d ->
  string_forall is_digit s = true ->
  string_forall is_digit (Datetime.strftime_YmdHMS d s) = true.
Proof.
  intros (Hy & Hmo & Hd & Hh & Hmi & Hs) Hall.
  unfold Datetime.strftime_YmdHMS, Datetime.four_digits, Datetime.two_digits.
  cbn [string_forall].
  rewrite !is_digit_digit by nat_div_lia.
  exact Hall.
Qed.

Lemma replay_in_range : Secrets.in_range Secrets.replay.
Proof.
  intros n [| x tape] Hn; simpl.
  - exact Hn.
  - apply Nat.mod_upper_bound. lia.
Qed.

End Timestamps.

(** X14: with a random source that draws indices within range,
    [generate_barcode] returns (no [IndexError]) a string of exactly 10
    characters, each an upper case letter or a digit; it fits the
    [max_length=20] of the [barcode] column. *)
Theorem generate_barcode_shape {Rng : Type}
    (randbelow : nat -> Rng -> nat * Rng) (r : Rng)
    (Hrange : Secrets.in_range randbelow) :
  exists (code : string) (r' : Rng),
    generate_barcode randbelow r = (Some code, r') /\
    String.length code = 10%nat /\
    (String.length code <= barcode_max_length)%nat /\
    string_forall (fun c => is_upper c || is_digit c) code = true.
Proof.
  unfold generate_barcode.
  destruct (join_choices_shape randbelow Hrange
              (fun c => is_upper c || is_digit c)
              (Secrets.ascii_uppercase ++ Secrets.digits)%string)
    with (n := 10%nat) (r := r) as (code & r' & Hrun & Hlen & Hall).
  - simpl. lia.
  - reflexivity.
  - exists code, r'. rewrite Hrun, Hlen. unfold barcode_max_length.
    repeat split; [lia | exact Hall].
Qed.

Lemma generate_barcode_shape_witness :
  exists (code : string) (r' : list nat),
    generate_barcode Secrets.replay [0; 37; 2; 29; 4; 31; 6; 33; 8; 35]%nat =
      (Some code, r') /\
    String.length code = 10%nat /\
    (String.length code <= barcode_max_length)%nat /\
    string_forall (fun c => is_upper c || is_digit c) code = true.
Proof.
  apply (generate_barcode_shape Secrets.replay).
  exact replay_in_range.
Defined.

(** X15: with a random source that draws indices within range and a clock
    reading with a four-digit year, [generate_transaction_number] returns
    ["TXN"] followed by 18 digits: the 14 of the time and 4 random ones.
    The number has 21 characters and fits the [max_length=50] of the
    [transaction_number] column. *)
Theorem generate_transaction_number_shape {Rng : Type}
    (randbelow : nat -> Rng -> nat * Rng) (now : Datetime.t) (r : Rng)
    (Hrange : Secrets.in_range randbelow) (Hnow : Datetime.valid now) :
  exists (number random_suffix : string) (r' : Rng),
    generate_transaction_number randbelow now r = (Some number, r') /\
    number = ("TXN" ++ Datetime.strftime_YmdHMS now random_suffix)%string /\
    String.length random_suffix = 4%nat /\
    string_forall is_digit (Datetime.strftime_YmdHMS now random_suffix) = true /\
    String.length number = 21%nat /\
    (String.length number <= transaction_number_max_length)%nat.
Proof.
  unfold generate_transaction_number.
  destruct (join_choices_shape randbelow Hrange is_digit Secrets.digits)
    with (n := 4%nat) (r := r) as (suffix & r' & Hrun & Hlen & Hall).
  - simpl. lia.
  - reflexivity.
  - rewrite Hrun. eexists. exists suffix, r'.
    split; [reflexivity |]. split; [reflexivity |].
    split; [exact Hlen |].
    split; [apply strftime_digits; assumption |].
    unfold transaction_number_max_length.
    cbn [append String.length Datetime.strftime_YmdHMS Datetime.four_digits
         Datetime.two_digits].
    rewrite Hlen. split; [reflexivity | lia].
Qed.

Lemma generate_transaction_number_shape_witness :
  exists (number random_suffix : string) (r' : list nat),
    generate_transaction_number Secrets.replay new_year_2024 [0; 0; 0; 1]%nat =
      (Some number, r') /\
    number = ("TXN" ++ Datetime.strftime_YmdHMS new_year_2024 random_suffix)%string /\
    String.length random_suffix = 4%nat /\
    string_forall is_digit
      (Datetime.strftime_YmdHMS new_year_2024 random_suffix) = true /\
    String.length number = 21%nat /\
    (String.length number <= transaction_number_max_length)%nat.
Proof.
  apply (generate_transaction_number_shape Secrets.replay new_year_2024).
  - exact replay_in_range.
  - unfold Datetime.valid, new_year_2024; simpl. lia.
Defined.

(** X16: the transaction number determines the second it was generated in:
    two calls that return the same number read the same time from the
    clock.  Numbers generated in different seconds are therefore different;
    within one second they differ only by the 4 random digits. *)
Theorem transaction_number_determines_second {Rng : Type}
    (randbelow : nat -> Rng -> nat * Rng)
    (now1 now2 : Datetime.t) (r1 r2 r1' r2' : Rng) (number : string)
    (Hnow1 : Datetime.valid now1) (Hnow2 : Datetime.valid now2)
    (Hrun1 : generate_transaction_number randbelow now1 r1 = (Some number, r1'))
    (Hrun2 : generate_transaction_number randbelow now2 r2 = (Some number, r2')) :
  now1 = now2.
Proof.
  unfold generate_transaction_number in Hrun1, Hrun2.
  destruct (Secrets.join_choices Rng randbelow 4 Secrets.digits r1)
    as [[s1 |] q1]; [| discriminate].
  destruct (Secrets.join_choices Rng randbelow 4 Secrets.digits r2)
    as [[s2 |] q2]; [| discriminate].
  injection Hrun1 as Hn1 _. injection Hrun2 as Hn2 _.
  rewrite <- Hn2 in Hn1. cbn [append] in Hn1.
  apply string_cons_inj in Hn1 as [_ Hn1].
  apply string_cons_inj in Hn1 as [_ Hn1].
  apply string_cons_inj in Hn1 as [_ Heq].
  apply strftime_inj in Heq; [| assumption | assumption].
  apply Heq.
Qed.

Lemma transaction_number_determines_second_witness :
  generate_transaction_number Secrets.replay new_year_2024 [0; 0; 0; 1]%nat =
    (Some "TXN202401010000000001"%string, []) /\
  Datetime.mk (2000 + 24) (12 - 11) 1 0 0 0 = new_year_2024.
Proof.
  split; [reflexivity |].
  apply (transaction_number_determines_second Secrets.replay
           (Datetime.mk (2000 + 24) (12 - 11) 1 0 0 0) new_year_2024
           [0; 0; 0; 1]%nat [10; 20; 30; 41; 5]%nat [] [5]%nat
           "TXN202401010000000001"%string).
  - unfold Datetime.valid; simpl. lia.
  - unfold Datetime.valid, new_year_2024; simpl. lia.
  - reflexivity.
  - reflexivity.
Defined.

(** * The string enumerations *)

(** X17: the values of each enumeration are pairwise different, so
    comparing two members by their stored string, as [==] does on a [str]
    enumeration, is comparing the members. *)
Theorem enum_values_identify_members :
  (forall a b : UnitType,
     String.eqb (UnitType_value a) (UnitType_value b) = UnitType_eqb a b) /\
  (forall a b : TransactionStatus,
     String.eqb (TransactionStatus_value a) (TransactionStatus_value b) =
     TransactionStatus_eqb a b) /\
  (forall a b : UserRole, UserRole_value a = UserRole_value b -> a = b).
Proof.
  split; [| split].
  - intros [] []; reflexivity.
  - intros [] []; reflexivity.
  - intros [] []; intro H; (reflexivity || discriminate H).
Qed.

(** * The line calculation and the stock check together *)

(** X18: the stock check and the line calculation agree on the amount of
    stock an order takes: [can_fulfill_order] for a line's quantity and unit
    type answers whether the item's [stock_quantity] is at least the
    [ecer_quantity] that [calculate_totals] stores in the line. *)
Theorem stock_check_compares_ecer_quantity (l : TransactionItem.t) (i : Item.t) :
  exists l' : TransactionItem.t,
    TransactionItem.calculate_totals (l, i) = (Ok tt, (l', i)) /\
    Item.can_fulfill_order
      (TransactionItem.quantity l) (TransactionItem.unit_type l) i =
      (Ok (Item.stock_quantity i >=? TransactionItem.ecer_quantity l'), i).
Proof.
  exists (calculated l i).
  rewrite line_calculate_totals_run, can_fulfill_order_run.
  split; reflexivity.
Qed.
